(** * SKM bead-pull measurement stand: the VNA block decoder and the sweep

    A shallow embedding of [vna.py], [motor.py] and
    [stoerkoerpermessung.py].  Python objects that talk to the hardware are
    modelled by explicit state passing over a [World] that holds the two
    serial lines and a chronological trace of everything the program does
    to the outside (bytes written, sleeps, file output).

    Conventions of the model.
    - [bytes] and [str] are both [list byte]; a [str] is represented by its
      UTF-8 encoding, so [encode] is the identity and [decode] checks that
      the bytes are well-formed UTF-8.
    - Python [float] is the primitive binary64 [float]; Python [int] is [Z].
    - The input buffer of a serial line holds every byte the device is
      going to deliver, in order.  A read that asks for more than is left
      blocks forever on a line opened without a timeout, and returns what
      is left on a line opened with one. *)

From Stdlib Require Import ZArith NArith List String Ascii Bool Lia Floats.
From Stdlib Require Import Strings.Byte.
From stdpp Require Import base option gmap strings.
Import ListNotations.

Local Open Scope Z_scope.

(** ** Bytes and text *)

Definition bytes := list byte.
Definition str := list byte.

Definition B (s : string) : bytes := list_byte_of_string s.

Definition byte_val (b : byte) : Z := Z.of_N (Byte.to_N b).

Definition byte_eqb (a b : byte) : bool := Byte.eqb a b.

Fixpoint bytes_eqb (x y : bytes) : bool :=
  match x, y with
  | [], [] => true
  | a :: x', b :: y' => byte_eqb a b && bytes_eqb x' y'
  | _, _ => false
  end.

Definition newline : byte := "010"%byte.
Definition hash : byte := "#"%byte.

(** ** Exceptions and results *)

Inductive exn : Type :=
  | NameError | TypeError | ValueError | UnicodeDecodeError | OverflowError
  | ZeroDivisionError | KeyError | RuntimeError | StructError
  | FileNotFoundError.

(** [Hang]: the program is blocked for ever in a read on a line without
    timeout.  [OutOfFuel]: a [while] loop was cut by the model's fuel. *)
Inductive res (A : Type) : Type :=
  | Ret (a : A)
  | Raise (e : exn)
  | Hang
  | OutOfFuel.
Arguments Ret {A} a.
Arguments Raise {A} e.
Arguments Hang {A}.
Arguments OutOfFuel {A}.

Definition res_bind {A C} (r : res A) (k : A -> res C) : res C :=
  match r with
  | Ret a => k a
  | Raise e => Raise e
  | Hang => Hang
  | OutOfFuel => OutOfFuel
  end.

(** ** [bytes.decode()]: strict UTF-8 *)

Definition is_cont (b : byte) : bool :=
  (128 <=? byte_val b) && (byte_val b <=? 191).

Definition in_range (lo hi : Z) (b : byte) : bool :=
  (lo <=? byte_val b) && (byte_val b <=? hi).

Fixpoint utf8_valid (bs : bytes) : bool :=
  match bs with
  | [] => true
  | b0 :: t0 =>
    if byte_val b0 <? 128 then utf8_valid t0
    else
      match t0 with
      | [] => false
      | b1 :: t1 =>
        if in_range 194 223 b0 then is_cont b1 && utf8_valid t1
        else
          match t1 with
          | [] => false
          | b2 :: t2 =>
            if in_range 224 239 b0 then
              (if byte_val b0 =? 224 then in_range 160 191 b1
               else if byte_val b0 =? 237 then in_range 128 159 b1
               else is_cont b1)
              && is_cont b2 && utf8_valid t2
            else
              match t2 with
              | [] => false
              | b3 :: t3 =>
                if in_range 240 244 b0 then
                  (if byte_val b0 =? 240 then in_range 144 191 b1
                   else if byte_val b0 =? 244 then in_range 128 143 b1
                   else is_cont b1)
                  && is_cont b2 && is_cont b3 && utf8_valid t3
                else false
              end
          end
      end
  end.

Definition decode (bs : bytes) : res str :=
  if utf8_valid bs then Ret bs else Raise UnicodeDecodeError.

Definition encode (s : str) : bytes := s.

(** ** [int(str)] and [str(int)]

    Python's [int] strips white space, takes an optional sign and then
    decimal digits, where single underscores may separate digits.  The
    model is exact on ASCII text; on text with characters outside ASCII it
    answers [ValueError], where Python would also accept the white space
    and the decimal digits of other scripts. *)

Definition is_space (b : byte) : bool :=
  in_range 9 13 b || in_range 28 32 b.

Definition is_digit (b : byte) : bool := in_range 48 57 b.

Definition digit_val (b : byte) : Z := byte_val b - 48.

Fixpoint lstrip (s : str) : str :=
  match s with
  | b :: t => if is_space b then lstrip t else s
  | [] => []
  end.

Definition rstrip (s : str) : str := rev (lstrip (rev s)).

Definition strip (s : str) : str := rstrip (lstrip s).

(** [digits_from acc n s] reads [digit (["_"] digit)*] from the front of
    [s]; [acc] is the value so far and [n] the number of digits read.
    Returns the value, the digit count and the rest; [None] when an
    underscore is not followed by a digit. *)
Fixpoint digits_from (acc : Z) (n : Z) (s : str) : option (Z * Z * str) :=
  match s with
  | b :: t =>
    if is_digit b then digits_from (10 * acc + digit_val b) (n + 1) t
    else if byte_eqb b "_"%byte then
      match t with
      | b' :: _ => if is_digit b' && (0 <? n) then digits_from acc n t else None
      | [] => None
      end
    else Some (acc, n, s)
  | [] => Some (acc, n, s)
  end.

Definition split_sign (s : str) : bool * str :=
  match s with
  | b :: t =>
    if byte_eqb b "-"%byte then (true, t)
    else if byte_eqb b "+"%byte then (false, t)
    else (false, s)
  | [] => (false, s)
  end.

Definition py_int (s : str) : res Z :=
  let (neg, body) := split_sign (strip s) in
  match digits_from 0 0 body with
  | Some (v, n, []) =>
    if 0 <? n then Ret (if neg then - v else v) else Raise ValueError
  | _ => Raise ValueError
  end.

Fixpoint dec_digits (fuel : nat) (n : Z) (acc : str) : str :=
  match fuel with
  | O => acc
  | S f =>
    let d := match Byte.of_N (Z.to_N (48 + n mod 10)) with
             | Some b => b
             | None => "0"%byte
             end in
    if n <? 10 then d :: acc else dec_digits f (n / 10) (d :: acc)
  end.

(** [str(n)] for an [int]. *)
Definition str_of_int (n : Z) : str :=
  if n <? 0 then "-"%byte :: dec_digits (S (Z.to_nat (Z.log2 (- n)))) (- n) []
  else dec_digits (S (Z.to_nat (Z.log2 n))) n [].


(** ** Floats: conversions between [int], [float], text and bit patterns *)

(** [float(n)] for an [int]: round to nearest even; [OverflowError] when
    the integer is beyond the binary64 range. *)
Definition float_of_int (z : Z) : res float :=
  match binary_normalize prec emax z 0 false with
  | S754_infinity _ => Raise OverflowError
  | sf => Ret (SF2Prim sf)
  end.

(** [int(x)] for a [float]: truncation towards zero. *)
Definition int_of_float (x : float) : res Z :=
  match Prim2SF x with
  | S754_nan => Raise ValueError
  | S754_infinity _ => Raise OverflowError
  | S754_zero _ => Ret 0
  | S754_finite s m e =>
    let a := Z.shiftl (Zpos m) e in
    Ret (if s then - a else a)
  end.

(** [x / y] on floats raises on a zero divisor. *)
Definition py_div (x y : float) : res float :=
  if PrimFloat.eqb y 0%float then Raise ZeroDivisionError
  else Ret (PrimFloat.div x y).

(** The binary64 value of a 64-bit pattern. *)
Definition double_of_bits (w : Z) : float :=
  let s := Z.testbit w 63 in
  let e := Z.land (Z.shiftr w 52) 2047 in
  let m := Z.land w (2 ^ 52 - 1) in
  SF2Prim
    (if e =? 0 then
       match m with
       | Zpos p => S754_finite s p (-1074)
       | _ => S754_zero s
       end
     else if e =? 2047 then
       (if m =? 0 then S754_infinity s else S754_nan)
     else
       match m + 2 ^ 52 with
       | Zpos p => S754_finite s p (e - 1075)
       | _ => S754_nan
       end).

Fixpoint le_value (bs : bytes) : Z :=
  match bs with
  | [] => 0
  | b :: t => byte_val b + 256 * le_value t
  end.

(** [unpack('<d', bs)]: one little-endian double from exactly 8 bytes. *)
Definition unpack_d (bs : bytes) : res float :=
  if (length bs =? 8)%nat then Ret (double_of_bits (le_value bs))
  else Raise StructError.

(** *** [float(str)]

    After stripping white space: an optional sign, then [inf], [infinity]
    or [nan] in any case, or a decimal number with optional fraction and
    exponent.  The decimal value is rounded to nearest even.  As for
    [py_int], text outside ASCII is answered by [ValueError]. *)

Definition lower (b : byte) : byte :=
  if in_range 65 90 b then
    match Byte.of_N (Byte.to_N b + 32) with Some c => c | None => b end
  else b.

(** Mantissa and decimal exponent of [digits [. digits] [e [sign] digits]]. *)
Definition parse_number (s : str) : option (Z * Z) :=
  match digits_from 0 0 s with
  | None => None
  | Some (ip, ni, r1) =>
    let frac :=
      match r1 with
      | b :: r2 =>
        if byte_eqb b "."%byte then digits_from ip 0 r2 else Some (ip, 0, r1)
      | [] => Some (ip, 0, r1)
      end in
    match frac with
    | None => None
    | Some (m, nf, r3) =>
      if 0 <? ni + nf then
        match r3 with
        | [] => Some (m, - nf)
        | b :: r4 =>
          if byte_eqb (lower b) "e"%byte then
            let (neg, r5) := split_sign r4 in
            match digits_from 0 0 r5 with
            | Some (x, nx, []) =>
              if 0 <? nx then Some (m, (if neg then - x else x) - nf) else None
            | _ => None
            end
          else None
        end
      else None
    end
  end.

(** The binary64 nearest to [m * 10 ^ e10], for [m >= 0]. *)
Definition round_decimal (m e10 : Z) : spec_float :=
  if m =? 0 then S754_zero false
  else if 310 <? e10 then S754_infinity false
  else if Z.log2 m + 1 + 3 * e10 <? -1080 then S754_zero false
  else if 0 <=? e10 then binary_normalize prec emax (m * 10 ^ e10) 0 false
  else
    let d := 10 ^ (- e10) in
    let s := Z.max 0 (66 + Z.log2 d - Z.log2 m) in
    let q := (m * 2 ^ s) / d in
    let r := (m * 2 ^ s) mod d in
    binary_normalize prec emax (2 * q + (if r =? 0 then 0 else 1)) (- s - 1) false.

Definition py_float (s : str) : res float :=
  let (neg, body) := split_sign (strip s) in
  let sgn (x : float) := if neg then PrimFloat.opp x else x in
  let low := map lower body in
  if bytes_eqb low (B "inf") || bytes_eqb low (B "infinity") then
    Ret (sgn infinity)
  else if bytes_eqb low (B "nan") then Ret nan
  else
    match parse_number body with
    | Some (m, e10) => Ret (sgn (SF2Prim (round_decimal m e10)))
    | None => Raise ValueError
    end.

(** ** The outside world *)

(** A pyserial [Serial] object: [timeout = None] makes reads block until
    they are satisfied. *)
Record Serial : Type := mkSerial {
  timeout : option float;
  inbuf : bytes
}.

Inductive dev : Type := DevVNA | DevMotor.

Inductive pyval : Type :=
  | VStr (s : str)
  | VInt (z : Z)
  | VFloat (x : float)
  | VTime (fmt : option str).

(** [VTime None] is the text of [asctime()] and [VTime (Some f)] that of
    [strftime(f)], both at the moment of the call. *)

(** What the program does to the outside, in the order it happens.  Text
    that goes through [str.format] is recorded as the format string with
    its arguments. *)
Inductive event : Type :=
  | EvWrite (d : dev) (bs : bytes)
  | EvSleep (t : float)
  | EvOpen (path : str)
  | EvFileWrite (path : str) (fmt : str) (args : list pyval)
  | EvPrint (dest : option str) (fmt : str) (args : list pyval)
  | EvFlush (path : str)
  | EvClose (path : str).

Record World : Type := mkWorld {
  vna_ser : Serial;
  motor_ser : Serial;
  readable : list (str * list str);
  trace : list event
}.

Definition ser (d : dev) (w : World) : Serial :=
  match d with DevVNA => vna_ser w | DevMotor => motor_ser w end.

Definition set_ser (d : dev) (s : Serial) (w : World) : World :=
  match d with
  | DevVNA => mkWorld s (motor_ser w) (readable w) (trace w)
  | DevMotor => mkWorld (vna_ser w) s (readable w) (trace w)
  end.

Definition log (e : event) (w : World) : World :=
  mkWorld (vna_ser w) (motor_ser w) (readable w) (trace w ++ [e]).

(** ** The monad of the embedding: state and results *)

Definition M (A : Type) : Type := World -> res A * World.

Definition ret {A} (a : A) : M A := fun w => (Ret a, w).

Definition raise {A} (e : exn) : M A := fun w => (Raise e, w).

Definition lift {A} (r : res A) : M A := fun w => (r, w).

Definition bind {A C} (m : M A) (k : A -> M C) : M C :=
  fun w =>
    match m w with
    | (Ret a, w') => k a w'
    | (Raise e, w') => (Raise e, w')
    | (Hang, w') => (Hang, w')
    | (OutOfFuel, w') => (OutOfFuel, w')
    end.

Declare Scope py_scope.
Delimit Scope py_scope with py.
Notation "'let*' x ':=' m 'in' k" := (bind m (fun x => k))
  (at level 10, x name, m at level 100, k at level 200) : py_scope.
Notation "'let*' ' p ':=' m 'in' k" :=
  (bind m (fun x => match x with p => k end))
  (at level 10, p strict pattern, m at level 100, k at level 200)
  : py_scope.
Notation "m ';;' k" := (bind m (fun _ => k))
  (at level 100, k at level 200, right associativity) : py_scope.
Local Open Scope py_scope.

Definition emit (e : event) : M unit := fun w => (Ret tt, log e w).

(** ** pyserial *)

(** [Serial.read(n)] *)
Definition serial_read (n : nat) (s : Serial) : res bytes * Serial :=
  if (n <=? length (inbuf s))%nat then
    (Ret (firstn n (inbuf s)), mkSerial (timeout s) (skipn n (inbuf s)))
  else
    match timeout s with
    | None => (Hang, s)
    | Some _ => (Ret (inbuf s), mkSerial (timeout s) [])
    end.

(** The first line of [bs], with its terminator, and what follows it. *)
Fixpoint split_line (bs : bytes) : option (bytes * bytes) :=
  match bs with
  | [] => None
  | b :: t =>
    if byte_eqb b newline then Some ([b], t)
    else
      match split_line t with
      | Some (l, r) => Some (b :: l, r)
      | None => None
      end
  end.

(** [Serial.readline()] *)
Definition serial_readline (s : Serial) : res bytes * Serial :=
  match split_line (inbuf s) with
  | Some (l, r) => (Ret l, mkSerial (timeout s) r)
  | None =>
    match timeout s with
    | None => (Hang, s)
    | Some _ => (Ret (inbuf s), mkSerial (timeout s) [])
    end
  end.

Definition read (d : dev) (n : nat) : M bytes :=
  fun w => let (r, s) := serial_read n (ser d w) in (r, set_ser d s w).

Definition readline (d : dev) : M bytes :=
  fun w => let (r, s) := serial_readline (ser d w) in (r, set_ser d s w).

Definition write (d : dev) (bs : bytes) : M unit := emit (EvWrite d bs).

(** [Serial(port, baudrate, timeout=t)]: pyserial refuses a negative
    baud rate and a negative timeout; the port itself is taken to open.
    The bytes of [inbuf] are those that arrive after the line is opened
    (and after the [flushInput] of [VNA.__init__]). *)
Definition Serial_open (d : dev) (baudrate : Z) (t : option float) : M unit :=
  fun w =>
    if baudrate <? 0 then (Raise ValueError, w)
    else
      match t with
      | Some x =>
        if PrimFloat.ltb x 0%float then (Raise ValueError, w)
        else (Ret tt, set_ser d (mkSerial t (inbuf (ser d w))) w)
      | None => (Ret tt, set_ser d (mkSerial t (inbuf (ser d w))) w)
      end.

(** [time.sleep(t)]: refuses NaN, a duration beyond 2^63 ns and a negative
    duration; otherwise the program is suspended for [t] seconds. *)
Definition sleep (t : float) : M unit :=
  if PrimFloat.is_nan t then raise ValueError
  else if PrimFloat.ltb 0x1p63%float (PrimFloat.abs (PrimFloat.mul t 1e9%float))
  then raise OverflowError
  else if PrimFloat.ltb t 0%float then raise ValueError
  else emit (EvSleep t).

(** [with open(path, "w") as f: body]: the file is closed when the body
    ends, also by an exception. *)
Definition with_open {A} (path : str) (body : M A) : M A :=
  fun w =>
    match body (log (EvOpen path) w) with
    | (Ret a, w') => (Ret a, log (EvClose path) w')
    | (Raise e, w') => (Raise e, log (EvClose path) w')
    | (r, w') => (r, w')
    end.

Definition tab : byte := "009"%byte.
Definition nl : str := [newline].

(** ** Lists of text *)

(** [s.split(c)] for a separator of one character. *)
Fixpoint split_on (c : byte) (s : str) : list str :=
  match s with
  | [] => [[]]
  | b :: t =>
    if byte_eqb b c then [] :: split_on c t
    else
      match split_on c t with
      | f :: fs => (b :: f) :: fs
      | [] => [[b]]
      end
  end.

(** [l[0::2]]; [l[1::2]] is [every_other (tl l)]. *)
Fixpoint every_other {A} (l : list A) : list A :=
  match l with
  | x :: _ :: t => x :: every_other t
  | _ => l
  end.

(** [[float(x) for x in l]]: the first text that is no number ends the
    comprehension. *)
Fixpoint floats (l : list str) : res (list float) :=
  match l with
  | [] => Ret []
  | x :: t =>
    res_bind (py_float x) (fun v =>
    res_bind (floats t) (fun vs => Ret (v :: vs)))
  end.

(** ** vna.py *)

Module Marker.

Record t : Type := mk { number : Z; prefix : str }.

(** [Marker.__init__]; the serial line is the one of the VNA. *)
Definition init (num : Z) : t :=
  mk num (B "CALC:MARK" ++ str_of_int num ++ B ":").

Definition cmd (self : t) (command : str) : M unit :=
  write DevVNA (encode (prefix self ++ command ++ nl)).

Definition get_pos (self : t) : M (float * float) :=
  cmd self (B "X?") ;;
  let* xb := readline DevVNA in
  let* x := lift (decode xb) in
  cmd self (B "Y?") ;;
  let* yb := readline DevVNA in
  let* y := lift (decode yb) in
  let* fx := lift (py_float x) in
  let* fy := lift (py_float y) in
  ret (fx, fy).

Definition search_min (self : t) : M (float * float) :=
  cmd self (B "MIN") ;;
  cmd self (B "SEARCH") ;;
  get_pos self.




End Marker.

Module VNA.

(** The names bound in the module: its imports (lines 6 to 9) and its
    two classes. *)
Definition module_names : list string :=
  ["Serial"; "sleep"; "asctime"; "sqrt"; "atan2"; "unpack"; "VNA";
   "Marker"]%string.

(** Evaluating a global name that is neither bound in the module nor a
    builtin raises [NameError]. *)
Definition global (name : string) : M unit :=
  if existsb (String.eqb name) module_names then ret tt
  else raise NameError.

Record t : Type := mk { mark : gmap Z Marker.t }.

Definition cmd (command : str) : M unit :=
  write DevVNA (encode (command ++ nl)).

(** [self.mark[i] = Marker(self.serial, i)] for [i] in [range(1, 5)] *)
Definition markers : gmap Z Marker.t :=
  foldl (fun m i => <[ i := Marker.init i ]> m) ∅ [1; 2; 3; 4].

Definition init (port : str) (baudrate : Z) : M t :=
  Serial_open DevVNA baudrate None ;;
  cmd (B "@REM") ;;
  ret (mk markers).


Definition get_center : M float :=
  cmd (B "SENSE:FREQ:CENTER?") ;;
  let* b := readline DevVNA in
  let* center := lift (decode b) in
  lift (py_float center).


Definition get_span : M float :=
  cmd (B "SENSE:FREQ:SPAN?") ;;
  let* b := readline DevVNA in
  let* span := lift (decode b) in
  lift (py_float span).





Definition set_avg (avg : Z) : M unit :=
  if 1 <? avg then
    cmd (B "SENSE:AVERAGE:COUNT " ++ str_of_int avg) ;;
    cmd (B "SENSE:AVERAGE:STATE ON") ;;
    cmd (B "SENSE:AVERAGE:CLEAR")
  else
    cmd (B "SENSE:AVERAGE:COUNT 1") ;;
    cmd (B "SENSE:AVERAGE:STATE OFF") ;;
    cmd (B "SENSE:AVERAGE:CLEAR").

Definition get_avg : M Z :=
  cmd (B "SENSE:AVERAGE:COUNT?") ;;
  let* b := readline DevVNA in
  let* avg := lift (decode b) in
  lift (py_int avg).

Definition reset_avg : M unit := cmd (B "SENSE:AVERAGE:CLEAR").

Definition set_points (pts : Z) : M unit :=
  let pts := if 2001 <? pts then 2001 else if pts <? 3 then 3 else pts in
  cmd (B "SENSE:SWEEP:POINTS " ++ str_of_int pts).

Definition get_points : M Z :=
  cmd (B "SENSE:SWEEP:POINTS?") ;;
  let* b := readline DevVNA in
  let* pts := lift (decode b) in
  lift (py_int pts).

Definition set_power (P : Z) : M unit :=
  let P := if 6 <? P then 6 else if P <? -17 then -17 else P in
  cmd (B "SOURCE:POWER " ++ str_of_int P ++ B "dBm").


Definition get_sweeptime : M float :=
  cmd (B "SENS:SWEEP:TIME?") ;;
  let* b := readline DevVNA in
  let* time := lift (decode b) in
  lift (py_float time).

(** [sleep(self.get_sweeptime() * (avg + 1))]: the [int] factor is
    converted to [float] for the product. *)
Definition measurecycles : M unit :=
  reset_avg ;;
  let* avg := get_avg in
  let* st := get_sweeptime in
  let* n := lift (float_of_int (avg + 1)) in
  sleep (PrimFloat.mul st n).

(** [zip] stops at the end of the shorter list. *)
Definition read_raw_ascii : M (list (float * float)) :=
  cmd (B "FORMAT:DATA ASCII") ;;
  cmd (B "TRAC? CH1DATA") ;;
  let* b := readline DevVNA in
  let* s := lift (decode b) in
  let raw := split_on ","%byte (rstrip s) in
  let* re := lift (floats (every_other raw)) in
  let* im := lift (floats (every_other (tl raw))) in
  ret (combine re im).

(** The body of [for i in range(data_pts)], [n] times. *)
Fixpoint read_points (n : nat) (acc : list (float * float))
  : M (list (float * float)) :=
  match n with
  | O => ret acc
  | S k =>
    let* b1 := read DevVNA 8 in
    let* re := lift (unpack_d b1) in
    let* b2 := read DevVNA 8 in
    let* im := lift (unpack_d b2) in
    read_points k (acc ++ [(re, im)])
  end.

(** [None] is Python's [None]. *)
Definition read_raw : M (option (list (float * float))) :=
  cmd (B "FORMAT:DATA REAL,64") ;;
  cmd (B "TRAC? CH1DATA") ;;
  let* byte := read DevVNA 1 in
  let* c := lift (decode byte) in
  if bytes_eqb c (B "#") then
    let* lb := read DevVNA 1 in
    let* ls := lift (decode lb) in
    let* length := lift (py_int ls) in
    let* fb := read DevVNA (Z.to_nat length) in
    let* fs := lift (decode fb) in
    let* data_length := lift (py_int fs) in
    let data_pts := data_length / 16 in
    let* r := read_points (Z.to_nat data_pts) [] in
    readline DevVNA ;;
    ret (Some r)
  else ret None.

(** [math.sqrt] *)
Definition py_sqrt (x : float) : res float :=
  if PrimFloat.ltb x 0%float then Raise ValueError
  else Ret (PrimFloat.sqrt x).

Section AmpPhase.

(** [math.atan2], which binary64 arithmetic alone does not fix. *)
Variable atan2 : float -> float -> float.

Fixpoint polar (raw : list (float * float)) : res (list (float * float)) :=
  match raw with
  | [] => Ret []
  | (re, im) :: t =>
    res_bind
      (py_sqrt (PrimFloat.add (PrimFloat.mul re re) (PrimFloat.mul im im)))
      (fun a => res_bind (polar t) (fun l => Ret ((a, atan2 im re) :: l)))
  end.

(** Iterating over [None] raises [TypeError]. *)
Definition read_amp_phase : M (list (float * float)) :=
  let* raw := read_raw in
  match raw with
  | None => raise TypeError
  | Some l => lift (polar l)
  end.

End AmpPhase.

Fixpoint write_lines (file : str) (raw : list (float * float)) : M unit :=
  match raw with
  | [] => ret tt
  | (real, imag) :: t =>
    emit (EvFileWrite file (B "{}" ++ [tab] ++ B "{}" ++ nl)
            [VFloat real; VFloat imag]) ;;
    write_lines file t
  end.

(** The argument of each [f.write] is evaluated before the write. *)
Definition write_raw (file : str) : M unit :=
  let* raw := read_raw in
  with_open file
    (global "strftime" ;;
     emit (EvFileWrite file (B "# Date: {}" ++ nl)
             [VTime (Some (B "%d/%m/%Y-%H:%M:%S"))]) ;;
     let* center := get_center in
     emit (EvFileWrite file (B "# Center: {}" ++ nl) [VFloat center]) ;;
     let* span := get_span in
     emit (EvFileWrite file (B "# Span: {}" ++ nl) [VFloat span]) ;;
     let* points := get_points in
     emit (EvFileWrite file (B "# Points: {}" ++ nl) [VInt points]) ;;
     emit (EvFileWrite file (B "# Real:" ++ [tab] ++ B "Imag:" ++ nl) []) ;;
     match raw with
     | None => raise TypeError
     | Some l => write_lines file l
     end).

End VNA.

(** ** motor.py *)

Definition lookup_file (path : str) (fs : list (str * list str))
  : option (list str) :=
  match find (fun e => bytes_eqb (fst e) path) fs with
  | Some e => Some (snd e)
  | None => None
  end.

(** The lines of a text file, as iterating over the open file gives them. *)
Definition read_lines (path : str) : M (list str) :=
  fun w =>
    match lookup_file path (readable w) with
    | Some ls => (Ret ls, w)
    | None => (Raise FileNotFoundError, w)
    end.

Module Motor.

Record t : Type := mk { name : str; scaling : float }.

Definition init (name : str) : t := mk name 1%float.

Fixpoint send_settings (self : t) (conf : list str) : M unit :=
  match conf with
  | [] => ret tt
  | setting :: rest =>
    write DevMotor (encode (name self ++ setting ++ nl)) ;;
    readline DevMotor ;;
    send_settings self rest
  end.

Definition load_motor_config (self : t) (file : str) : M unit :=
  let* lines := read_lines file in
  let conf :=
    map rstrip (filter (fun line => negb (bytes_eqb line [])) lines) in
  send_settings self conf.

Definition get (self : t) (var : str) : M str :=
  write DevMotor (encode (name self ++ B "PR " ++ var ++ nl)) ;;
  readline DevMotor ;;
  let* b := readline DevMotor in
  let* response := lift (decode b) in
  ret (rstrip response).

(** [int(1.0 * pos / self.scaling)] *)
Definition steps_of (self : t) (pos : float) : res Z :=
  res_bind (py_div (PrimFloat.mul 1%float pos) (scaling self)) int_of_float.

Definition move (self : t) (pos : float) : M unit :=
  let* P := lift (steps_of self pos) in
  write DevMotor (encode (name self ++ B "MR " ++ str_of_int P ++ nl)) ;;
  readline DevMotor ;;
  ret tt.

Definition speed (self : t) (speed : float) : M unit :=
  let* SP := lift (steps_of self speed) in
  write DevMotor (encode (name self ++ B "SL " ++ str_of_int SP ++ nl)) ;;
  readline DevMotor ;;
  ret tt.

Definition stop (self : t) : M unit :=
  write DevMotor (encode (name self ++ B "SL 0" ++ nl)) ;;
  readline DevMotor ;;
  ret tt.

Definition move_to (self : t) (pos : float) : M unit :=
  let* P := lift (steps_of self pos) in
  write DevMotor (encode (name self ++ B "MA " ++ str_of_int P ++ nl)) ;;
  readline DevMotor ;;
  ret tt.

Definition reset_pos (self : t) : M unit :=
  write DevMotor (encode (name self ++ B "P 0" ++ nl)) ;;
  readline DevMotor ;;
  ret tt.

Definition pos (self : t) : M float :=
  let* r := get self (B "P") in
  let* P := lift (py_int r) in
  let* x := lift (float_of_int P) in
  ret (PrimFloat.mul x (scaling self)).

Definition is_at_limit_high (self : t) : M bool :=
  let* r := get self (B "I1") in
  let* I1 := lift (py_int r) in
  ret (negb (I1 =? 0)).

Definition is_at_limit_low (self : t) : M bool :=
  let* r := get self (B "I2") in
  let* I2 := lift (py_int r) in
  ret (negb (I2 =? 0)).

Definition analog_pos (self : t) : M Z :=
  let* r := get self (B "I5") in
  lift (py_int r).

Definition is_moving (self : t) : M bool :=
  let* r := get self (B "MV") in
  let* MV := lift (py_int r) in
  ret (negb (MV =? 0)).

End Motor.

(** ** stoerkoerpermessung.py *)

(** A parsed configuration: sections by name, and in a section the value of
    each option under its lower-cased name, as [ConfigParser] stores them
    (values of the [DEFAULT] section and interpolation already applied). *)
Definition SectionProxy : Type := gmap string str.
Definition Config : Type := gmap string SectionProxy.

Definition lower_ascii (c : ascii) : ascii :=
  let n := N_of_ascii c in
  if ((65 <=? n) && (n <=? 90))%N then ascii_of_N (n + 32) else c.

(** [ConfigParser.optionxform] *)
Fixpoint optionxform (s : string) : string :=
  match s with
  | EmptyString => EmptyString
  | String c t => String (lower_ascii c) (optionxform t)
  end.

(** [config[name]] *)
Definition section (cfg : Config) (name : string) : res SectionProxy :=
  match cfg !! name with
  | Some s => Ret s
  | None => Raise KeyError
  end.

(** [settings[key]] *)
Definition item (settings : SectionProxy) (key : string) : res str :=
  match settings !! optionxform key with
  | Some v => Ret v
  | None => Raise KeyError
  end.

(** [key in settings] *)
Definition has_option (settings : SectionProxy) (key : string) : bool :=
  match settings !! optionxform key with
  | Some _ => true
  | None => false
  end.

(** [settings.getboolean(key)]: [None] for a missing option. *)
Definition getboolean (settings : SectionProxy) (key : string)
  : res (option bool) :=
  match settings !! optionxform key with
  | None => Ret None
  | Some v =>
    let l := map lower v in
    if existsb (bytes_eqb l) [B "1"; B "yes"; B "true"; B "on"] then
      Ret (Some true)
    else if existsb (bytes_eqb l) [B "0"; B "no"; B "false"; B "off"] then
      Ret (Some false)
    else Raise ValueError
  end.

(** The truth value of [None], [True] and [False]. *)
Definition truthy (o : option bool) : bool :=
  match o with
  | Some true => true
  | _ => false
  end.

(** [format(s, fill ">" width)] for text [s]. *)
Definition pad_left (fill : byte) (width : nat) (s : str) : str :=
  repeat fill (width - length s) ++ s.

Fixpoint rfind_from (c : byte) (s : str) (i last : Z) : Z :=
  match s with
  | [] => last
  | b :: t => rfind_from c t (i + 1) (if byte_eqb b c then i else last)
  end.

(** [s.rfind(c)] *)
Definition rfind (c : byte) (s : str) : Z := rfind_from c s 0 (-1).

(** [os.path.splitext] of [posixpath]. *)
Definition splitext (p : str) : str * str :=
  let sepIndex := rfind "/"%byte p in
  let dotIndex := rfind "."%byte p in
  if sepIndex <? dotIndex then
    let stem :=
      firstn (Z.to_nat (dotIndex - (sepIndex + 1)))
             (skipn (Z.to_nat (sepIndex + 1)) p) in
    if forallb (fun b => byte_eqb b "."%byte) stem then (p, [])
    else (firstn (Z.to_nat dotIndex) p, skipn (Z.to_nat dotIndex) p)
  else (p, []).

(** The literals [0.1] and [1E-6] of the source, as binary64 values. *)
Definition tenth : float := 0x1.999999999999ap-4%float.
Definition epsilon : float := 0x1.0c6f7a0b5ed8dp-20%float.

Definition out_of_fuel {A} : M A := fun w => (OutOfFuel, w).

(** [pos = start; while stop - pos > -1E-6: body(pos); pos += stepsize] *)
Fixpoint while_sweep (body : float -> M unit) (stop stepsize : float)
         (fuel : nat) (pos : float) : M unit :=
  match fuel with
  | O => out_of_fuel
  | S f =>
    if PrimFloat.ltb (PrimFloat.opp epsilon) (PrimFloat.sub stop pos) then
      body pos ;;
      while_sweep body stop stepsize f (PrimFloat.add pos stepsize)
    else ret tt
  end.

Module Stoerkoerpermessung.

Record t : Type := mk {
  config_filename : str;
  config : Config;
  out_filename : str;
  motor : Motor.t;
  vna : VNA.t
}.

Definition init_motor (cfg : Config) : M Motor.t :=
  let* settings := lift (section cfg "MOTOR") in
  let* port := lift (item settings "Port") in
  let* b := lift (item settings "Baudrate") in
  let* baudrate := lift (py_int b) in
  let* s := lift (item settings "SerialTimeout") in
  let* serial_timeout := lift (py_float s) in
  Serial_open DevMotor baudrate (Some serial_timeout) ;;
  let* motor_name := lift (item settings "Name") in
  let* motor_config := lift (item settings "Config") in
  let m := Motor.init motor_name in
  Motor.load_motor_config m motor_config ;;
  let* sc := lift (item settings "Scaling") in
  let* scaling := lift (py_float sc) in
  ret (Motor.mk (Motor.name m) scaling).

Definition init_vna (cfg : Config) : M VNA.t :=
  let* settings := lift (section cfg "VNA") in
  let* port := lift (item settings "Port") in
  let* b := lift (item settings "Baudrate") in
  let* baudrate := lift (py_int b) in
  let* v := VNA.init port baudrate in
  let* p := lift (item settings "Points") in
  let* points := lift (py_int p) in
  let* pw := lift (item settings "Power") in
  let* power := lift (py_int pw) in
  let* a := lift (item settings "Average") in
  let* average := lift (py_int a) in
  VNA.set_points points ;;
  VNA.set_power power ;;
  VNA.set_avg average ;;
  VNA.measurecycles ;;
  ret v.

(** [__init__]; [cfg] is what [ConfigParser.read] made of the file. *)
Definition init (config_file : str) (cfg : Config) (filename : str) : M t :=
  let* m := init_motor cfg in
  let* v := init_vna cfg in
  ret (mk config_file cfg filename m v).

(** [while self.motor.is_moving(): sleep(0.1)] *)
Fixpoint wait_motor (self : t) (fuel : nat) : M unit :=
  match fuel with
  | O => out_of_fuel
  | S f =>
    let* moving := Motor.is_moving (motor self) in
    if moving then sleep tenth ;; wait_motor self f else ret tt
  end.

Definition get_freq_at (self : t) (fuel : nat) (pos : float) : M float :=
  let* ms := lift (section (config self) "MEASUREMENT") in
  let* d := lift (item ms "Delay") in
  let* delay := lift (py_float d) in
  let* vs := lift (section (config self) "VNA") in
  let* a := lift (item vs "Average") in
  let* average := lift (py_int a) in
  Motor.move_to (motor self) pos ;;
  wait_motor self fuel ;;
  sleep delay ;;
  VNA.measurecycles ;;
  let* m1 := lift (match VNA.mark (vna self) !! 1 with
                   | Some m => Ret m
                   | None => Raise KeyError
                   end) in
  let* '(freq, refl) := Marker.search_min m1 in
  ret freq.

(** Lines 94 to 101: which of [StepSize] and [Steps] gives the step. *)
Definition plan_stepsize (settings : SectionProxy) (start stop : float)
  : res float :=
  if negb (xorb (has_option settings "StepSize")
                (has_option settings "Steps"))
  then Raise RuntimeError
  else if has_option settings "StepSize" then
    res_bind (item settings "StepSize") py_float
  else
    res_bind (item settings "Steps") (fun s =>
    res_bind (py_int s) (fun steps =>
    res_bind (float_of_int steps) (fun d =>
    py_div (PrimFloat.sub stop start) d))).

Section Sweep.

Variable self : t.
Variable fuel : nat.
Variables start stop stepsize cm_reference : float.
Variables infinite rc_mode checkmode : option bool.
Variable rc_folder : str.

Definition capture (pos : float) (suffix appendix ext : str) : M unit :=
  if truthy rc_mode then
    let* n := lift (int_of_float pos) in
    VNA.write_raw
      (rc_folder ++ pad_left "0"%byte 4 (str_of_int n) ++ suffix
         ++ appendix ++ ext)
  else ret tt.

(** The body of the inner loop, lines 128 to 142. *)
Definition point (outf appendix ext : str) (pos : float) : M unit :=
  emit (EvPrint None (B "Measuring: d = {} mm") [VFloat pos]) ;;
  let* f_ref :=
    (if truthy checkmode then
       let* f := get_freq_at self fuel cm_reference in
       capture pos (B "mm_ref") appendix ext ;;
       ret (Some f)
     else ret None) in
  let* freq := get_freq_at self fuel pos in
  capture pos (B "mm") appendix ext ;;
  match f_ref with
  | Some f_ref =>
    emit (EvPrint (Some outf)
            (B "{0:.3f}" ++ [tab] ++ B "{1}" ++ [tab] ++ B "{2}"
               ++ [tab] ++ B "{3}")
            [VFloat pos; VFloat freq; VFloat f_ref;
             VFloat (PrimFloat.sub freq f_ref)])
  | None =>
    emit (EvPrint (Some outf) (B "{0:.3f}" ++ [tab] ++ B "{1}")
            [VFloat pos; VFloat freq])
  end.

Definition sweep (outf appendix ext : str) : M unit :=
  while_sweep (fun pos => point outf appendix ext pos ;; emit (EvFlush outf))
              stop stepsize fuel start.

(** One turn of [while True], lines 106 to 150. *)
Definition cycle (inf_cnt : Z) : M unit :=
  let appendix :=
    if truthy infinite then
      B "_" ++ pad_left "0"%byte 2 (str_of_int inf_cnt)
    else [] in
  let '(name, ext) := splitext (out_filename self) in
  let outf := name ++ appendix ++ ext in
  with_open outf
    (emit (EvPrint (Some outf) (B "# Config: {}")
             [VStr (config_filename self)]) ;;
     emit (EvPrint (Some outf) (B "# Date: {}") [VTime None]) ;;
     let* center := VNA.get_center in
     emit (EvPrint (Some outf) (B "# Center: {}") [VFloat center]) ;;
     let* span := VNA.get_span in
     emit (EvPrint (Some outf) (B "# Span: {}") [VFloat span]) ;;
     let* points := VNA.get_points in
     emit (EvPrint (Some outf) (B "# Points: {}") [VInt points]) ;;
     (if truthy checkmode then
        emit (EvPrint (Some outf)
                (B "# P" ++ [tab] ++ B "f" ++ [tab] ++ B "f_ref"
                   ++ [tab] ++ B "freq-t_ref") [])
      else
        emit (EvPrint (Some outf) (B "# P" ++ [tab] ++ B "f") [])) ;;
     sweep outf appendix ext) ;;
  Motor.move_to (motor self) start.

Fixpoint cycles (n : nat) (inf_cnt : Z) : M unit :=
  match n with
  | O => out_of_fuel
  | S k =>
    cycle inf_cnt ;;
    if truthy infinite then cycles k (inf_cnt + 1) else ret tt
  end.

End Sweep.

(** The settings that [measure] reads before it plans the steps, lines
    74 to 86. *)
Record Settings : Type := mkSettings {
  start : float;
  stop : float;
  infinite : option bool;
  rc_mode : option bool;
  rc_folder : str;
  checkmode : option bool;
  cm_reference : float
}.

Definition read_settings (settings : SectionProxy) : res Settings :=
  res_bind (item settings "Start") (fun s =>
  res_bind (py_float s) (fun start =>
  res_bind (item settings "Stop") (fun e =>
  res_bind (py_float e) (fun stop =>
  res_bind (getboolean settings "Infinite") (fun infinite =>
  res_bind (getboolean settings "CaptureResonanceCurve") (fun rc_mode =>
  res_bind (item settings "ResonanceCurveFolder") (fun rc_folder =>
  res_bind (getboolean settings "Checkmode") (fun checkmode =>
  res_bind (item settings "ReferencePoint") (fun r =>
  res_bind (py_float r) (fun cm_reference =>
  Ret (mkSettings start stop infinite rc_mode rc_folder checkmode
         cm_reference))))))))))).

(** Every [while] loop runs for at most [fuel] turns. *)
Definition measure (self : t) (fuel : nat) : M unit :=
  let* settings := lift (section (config self) "MEASUREMENT") in
  let* s := lift (read_settings settings) in
  let '(start, stop) :=
    if PrimFloat.ltb (stop s) (start s) then (stop s, start s)
    else (start s, stop s) in
  let* stepsize := lift (plan_stepsize settings start stop) in
  cycles self fuel start stop stepsize (cm_reference s) (infinite s)
         (rc_mode s) (checkmode s) (rc_folder s) fuel 1.

(** The script: build the object, then measure. *)
Definition main (config_file : str) (cfg : Config) (file : str)
           (fuel : nat) : M unit :=
  let* measurement := init config_file cfg file in
  measure measurement fuel.

End Stoerkoerpermessung.

(** ** Vocabulary of the specifications *)

(** The world with the pending input of line [d] replaced. *)
Definition set_inbuf (d : dev) (bs : bytes) (w : World) : World :=
  set_ser d (mkSerial (timeout (ser d w)) bs) w.

(** The world after the events [es]. *)
Definition logs (es : list event) (w : World) : World :=
  mkWorld (vna_ser w) (motor_ser w) (readable w) (trace w ++ es).

(** The value of a string of decimal digits. *)
Definition dec_value (ds : bytes) : Z :=
  fold_left (fun acc b => 10 * acc + digit_val b) ds 0.


(** The two commands that open every trace transfer. *)
Definition trace_query : list event :=
  [EvWrite DevVNA (B "FORMAT:DATA REAL,64" ++ nl);
   EvWrite DevVNA (B "TRAC? CH1DATA" ++ nl)].


(** [a ; b ; ...]: the bodies of a sweep at successive positions. *)
Fixpoint visit (body : float -> M unit) (ps : list float) : M unit :=
  match ps with
  | [] => ret tt
  | p :: t => body p ;; visit body t
  end.

(** ** Concrete inputs *)

(** The little-endian bytes of [1.0] and of [2.0]. *)
Definition le_one : bytes :=
  ["000"; "000"; "000"; "000"; "000"; "000"; "240"; "063"]%byte.
Definition le_two : bytes :=
  ["000"; "000"; "000"; "000"; "000"; "000"; "000"; "064"]%byte.

(** A world in which the VNA is going to send [input], on a line opened
    as [VNA.__init__] opens it: without timeout. *)
Definition vna_world (input : bytes) : World :=
  mkWorld (mkSerial None input) (mkSerial None []) [] [].

(** A line of text with its terminator. *)
Definition ln (s : string) : bytes := B s ++ nl.


(** What the decoding loop ends in when fewer than 8 bytes are left for one
    of its reads. *)
Definition starved (w : World) : res (list (float * float)) :=
  match timeout (vna_ser w) with
  | None => Hang
  | Some _ => Raise StructError
  end.


(** Whatever [m] does, it leaves the trace it found in place and appends
    to it. *)
Definition grows {A} (m : M A) : Prop :=
  forall w r w', m w = (r, w') -> exists t, trace w' = trace w ++ t.

(** The section [MEASUREMENT] of a configuration in the manner of
    [example.ini]; [plan] holds the options that vary between the
    examples. *)
Definition example_measurement (plan : list (string * str)) : SectionProxy :=
  list_to_map
    ([("start", B "0"); ("stop", B "10"); ("delay", B "0.5");
      ("infinite", B "no"); ("captureresonancecurve", B "no");
      ("resonancecurvefolder", B "rc/"); ("checkmode", B "yes");
      ("referencepoint", B "5.0")]%string ++ plan).

Definition example_config (plan : list (string * str)) : Config :=
  <[ "MOTOR"%string :=
       list_to_map
         [("port", B "/dev/ttyUSB0"); ("baudrate", B "9600");
          ("serialtimeout", B "1.0"); ("name", B "D");
          ("config", B "stoerkoerper.conf"); ("scaling", B "0.5")]%string ]>
  (<[ "VNA"%string :=
       list_to_map
         [("port", B "/dev/ttyUSB1"); ("baudrate", B "57600");
          ("points", B "201"); ("power", B "0");
          ("average", B "3")]%string ]>
  (<[ "MEASUREMENT"%string := example_measurement plan ]> ∅)).

(** The measurement object that [__init__] builds from it. *)
Definition example_self (plan : list (string * str)) : Stoerkoerpermessung.t :=
  Stoerkoerpermessung.mk (B "example.ini") (example_config plan)
    (B "out.dat") (Motor.mk (B "D") 0.5%float) (VNA.mk VNA.markers).

(** What the motor sends while one position is approached: the echo of
    the move, then the answer [0] to one query of [MV]. *)
Definition motor_point : bytes := ln "" ++ ln "" ++ ln "0".

(** What the VNA sends while one position is sampled: average count,
    sweep time, then the marker at frequency [f]. *)
Definition vna_point (f : string) : bytes :=
  ln "3" ++ ln "2.0" ++ ln f ++ ln "-20.5".

(** A world after [__init__]: the motor line has a timeout of 1 s. *)
Definition lab (vna_in motor_in : bytes) : World :=
  mkWorld (mkSerial None vna_in) (mkSerial (Some 1%float) motor_in)
    [(B "stoerkoerper.conf", [ln "VM=1000"; ln "A=500"])] [].

(** The row of the output table in checkmode. *)
Definition checkmode_row (outf : str) (pos freq f_ref : float) : event :=
  EvPrint (Some outf)
    (B "{0:.3f}" ++ [tab] ++ B "{1}" ++ [tab] ++ B "{2}" ++ [tab] ++ B "{3}")
    [VFloat pos; VFloat freq; VFloat f_ref; VFloat (PrimFloat.sub freq f_ref)].

(** The command that sends the motor to the absolute position of [P]
    steps. *)
Definition move_command (m : Motor.t) (P : Z) : event :=
  EvWrite DevMotor (Motor.name m ++ B "MA " ++ str_of_int P ++ nl).

(** The scenario of the specification: reference point 5.0, target 7.0.
    The marker is at 1.5 GHz with the bead at the reference point and at
    1.4 GHz with the bead at the target. *)
Definition checkmode_lab : World :=
  lab (vna_point "1.5e9" ++ vna_point "1.4e9") (motor_point ++ motor_point).

Definition after_reference : World :=
  snd (Stoerkoerpermessung.get_freq_at (example_self []) 3 5%float
         (log (EvPrint None (B "Measuring: d = {} mm") [VFloat 7%float])
              checkmode_lab)).

Definition after_target : World :=
  snd (Stoerkoerpermessung.get_freq_at (example_self []) 3 7%float
         after_reference).

(** A world before [__init__]: the motor echoes the two lines of its
    configuration file, the VNA answers the first averaging cycle. *)
Definition before_init : World :=
  mkWorld (mkSerial None (ln "3" ++ ln "2.0"))
          (mkSerial None (ln "" ++ ln ""))
          [(B "stoerkoerper.conf", [ln "VM=1000"; ln "A=500"])] [].

(** What [__init__] does to the outside in this world. *)
Definition init_events : list event :=
  [EvWrite DevMotor (B "DVM=1000" ++ nl);
   EvWrite DevMotor (B "DA=500" ++ nl);
   EvWrite DevVNA (B "@REM" ++ nl);
   EvWrite DevVNA (B "SENSE:SWEEP:POINTS 201" ++ nl);
   EvWrite DevVNA (B "SOURCE:POWER 0dBm" ++ nl);
   EvWrite DevVNA (B "SENSE:AVERAGE:COUNT 3" ++ nl);
   EvWrite DevVNA (B "SENSE:AVERAGE:STATE ON" ++ nl);
   EvWrite DevVNA (B "SENSE:AVERAGE:CLEAR" ++ nl);
   EvWrite DevVNA (B "SENSE:AVERAGE:CLEAR" ++ nl);
   EvWrite DevVNA (B "SENSE:AVERAGE:COUNT?" ++ nl);
   EvWrite DevVNA (B "SENS:SWEEP:TIME?" ++ nl);
   EvSleep 8%float].

(** Both ways to plan the steps at once. *)
Definition plan_both : list (string * str) :=
  [("steps", B "5"); ("stepsize", B "2")]%string.

(** The query of the motor variable [var]. *)
Definition motor_query (m : Motor.t) (var : str) : event :=
  EvWrite DevMotor (Motor.name m ++ B "PR " ++ var ++ nl).





(** The name of the file that the cycle with the count [inf_cnt] writes
    (lines 106 to 113). *)
Definition cycle_file (self : Stoerkoerpermessung.t) (infinite : option bool)
           (inf_cnt : Z) : str :=
  let appendix :=
    if truthy infinite then B "_" ++ pad_left "0"%byte 2 (str_of_int inf_cnt)
    else [] in
  fst (splitext (Stoerkoerpermessung.out_filename self)) ++ appendix
    ++ snd (splitext (Stoerkoerpermessung.out_filename self)).

(** A configuration in the manner of [example.ini] with [Infinite = yes]. *)
Definition endless_self : Stoerkoerpermessung.t :=
  Stoerkoerpermessung.mk (B "example.ini")
    (<[ "MEASUREMENT"%string :=
          <[ "infinite"%string := B "yes" ]>
            (example_measurement [("steps"%string, B "5")]) ]>
       (example_config []))
    (B "out.dat") (Motor.mk (B "D") 0.5%float) (VNA.mk VNA.markers).

(** A world in which a sweep of the single position 0 goes through: the
    VNA answers the three queries of the table head and one point, the
    motor one approach and the move back. *)
Definition one_point_lab : World :=
  lab (ln "1.5e9" ++ ln "1e6" ++ ln "201" ++ vna_point "1.5e9")
      (motor_point ++ ln "").

(** Whatever [m] does, it leaves the trace it found in place and appends
    only events that satisfy [P]. *)
Definition emits {A} (P : event -> Prop) (m : M A) : Prop :=
  forall w r w', m w = (r, w') ->
  exists t, trace w' = trace w ++ t /\ Forall P t.

(** A complete line written to the motor that starts with its name. *)
Definition addressed (m : Motor.t) (e : event) : Prop :=
  exists s, e = EvWrite DevMotor (Motor.name m ++ s ++ nl).

(** A write to the VNA, or a sleep. *)
Definition vna_traffic (e : event) : Prop :=
  match e with
  | EvWrite DevVNA _ | EvSleep _ => True
  | _ => False
  end.

(** A configuration in the manner of [example.ini] with the bounds given
    downwards: [Start = 10], [Stop = 0]. *)
Definition downward_self : Stoerkoerpermessung.t :=
  Stoerkoerpermessung.mk (B "example.ini")
    (<[ "MEASUREMENT"%string :=
          <[ "start"%string := B "10" ]>
            (<[ "stop"%string := B "0" ]>
               (example_measurement [("steps"%string, B "5")])) ]>
       (example_config []))
    (B "out.dat") (Motor.mk (B "D") 0.5%float) (VNA.mk VNA.markers).

(** On a motor line that has a timeout, [m] does not block for ever, and
    it leaves the timeout in place. *)
Definition prompt {A} (m : M A) : Prop :=
  forall w t r w',
    timeout (motor_ser w) = Some t -> m w = (r, w') ->
    r <> Hang /\ timeout (motor_ser w') = Some t.

(** * Theorems *)

(** ** The world and the monad *)

Lemma ser_log d e w : ser d (log e w) = ser d w.
Proof. destruct d; reflexivity. Qed.

Lemma ser_logs d es w : ser d (logs es w) = ser d w.
Proof. destruct d; reflexivity. Qed.

Lemma inbuf_set_inbuf d bs w : inbuf (ser d (set_inbuf d bs w)) = bs.
Proof. destruct d; reflexivity. Qed.

Lemma timeout_set_inbuf d bs w :
  timeout (ser d (set_inbuf d bs w)) = timeout (ser d w).
Proof. destruct d; reflexivity. Qed.


Lemma set_inbuf_twice d a b w :
  set_inbuf d a (set_inbuf d b w) = set_inbuf d a w.
Proof. destruct d; reflexivity. Qed.






Lemma bind_Ret {A C} (m : M A) (k : A -> M C) w a w' :
  m w = (Ret a, w') -> bind m k w = k a w'.
Proof. unfold bind; now intros ->. Qed.

Lemma bind_Raise {A C} (m : M A) (k : A -> M C) w e w' :
  m w = (Raise e, w') -> bind m k w = (Raise e, w').
Proof. unfold bind; now intros ->. Qed.

Lemma bind_Hang {A C} (m : M A) (k : A -> M C) w w' :
  m w = (Hang, w') -> bind m k w = (Hang, w').
Proof. unfold bind; now intros ->. Qed.

(** A bind that returns has returned from both of its parts. *)
Lemma bind_inv {A C} (m : M A) (k : A -> M C) w c w' :
  bind m k w = (Ret c, w') ->
  exists a w1, m w = (Ret a, w1) /\ k a w1 = (Ret c, w').
Proof.
  unfold bind. destruct (m w) as [[a| | |] w1]; try discriminate.
  intros H. now exists a, w1.
Qed.

(** ** pyserial *)

Lemma serial_read_enough n bs rest t :
  length bs = n ->
  serial_read n (mkSerial t (bs ++ rest)) = (Ret bs, mkSerial t rest).
Proof.
  intros <-. unfold serial_read; simpl.
  rewrite length_app.
  replace (length bs <=? length bs + length rest)%nat with true
    by (symmetry; apply Nat.leb_le; lia).
  rewrite firstn_app, skipn_app, firstn_all, skipn_all, Nat.sub_diag.
  simpl. now rewrite app_nil_r.
Qed.

Lemma read_enough d n bs rest w :
  inbuf (ser d w) = bs ++ rest -> length bs = n ->
  read d n w = (Ret bs, set_inbuf d rest w).
Proof.
  intros Hin Hn. unfold read, set_inbuf.
  destruct (ser d w) as [t ib] eqn:E; simpl in *. subst ib.
  now rewrite serial_read_enough.
Qed.

Lemma split_line_found line rest :
  ~ In newline line ->
  split_line (line ++ newline :: rest) = Some (line ++ [newline], rest).
Proof.
  induction line as [|b line IH]; simpl; intros Hn.
  - reflexivity.
  - destruct (byte_eqb b newline) eqn:E.
    + exfalso. apply Hn. left. symmetry. now apply Byte.byte_dec_bl.
    + rewrite IH; auto.
Qed.

Lemma split_line_none bs : ~ In newline bs -> split_line bs = None.
Proof.
  induction bs as [|b bs IH]; simpl; intros Hn; auto.
  destruct (byte_eqb b newline) eqn:E.
  - exfalso. apply Hn. left. symmetry. now apply Byte.byte_dec_bl.
  - rewrite IH; auto.
Qed.

Lemma readline_found d line rest w :
  inbuf (ser d w) = line ++ newline :: rest -> ~ In newline line ->
  readline d w = (Ret (line ++ [newline]), set_inbuf d rest w).
Proof.
  intros Hin Hn. unfold readline, set_inbuf, serial_readline.
  rewrite Hin, split_line_found by assumption. reflexivity.
Qed.

(** ** Text *)

Lemma digit_facts b :
  is_digit b = true ->
  is_space b = false /\ byte_eqb b "-"%byte = false
  /\ byte_eqb b "+"%byte = false /\ byte_eqb b "_"%byte = false
  /\ (byte_val b <? 128) = true.
Proof.
  destruct b; intros H; try discriminate H; repeat split; reflexivity.
Qed.

Lemma utf8_valid_ascii bs :
  Forall (fun b => (byte_val b <? 128) = true) bs -> utf8_valid bs = true.
Proof.
  induction 1 as [|b bs Hb _ IH]; simpl; auto. now rewrite Hb.
Qed.

Lemma decode_digits ds : Forall (fun b => is_digit b = true) ds -> decode ds = Ret ds.
Proof.
  intros H. unfold decode. rewrite utf8_valid_ascii; auto.
  eapply List.Forall_impl; [|exact H]. intros b Hb. now apply digit_facts.
Qed.

Lemma digits_from_all ds : forall acc n,
  Forall (fun b => is_digit b = true) ds ->
  digits_from acc n ds
  = Some (fold_left (fun a b => 10 * a + digit_val b) ds acc,
          n + Z.of_nat (length ds), []).
Proof.
  induction ds as [|b ds IH]; intros acc n H; simpl.
  - now rewrite Z.add_0_r.
  - inversion H as [|? ? Hb Hds]; subst. rewrite Hb, IH by assumption.
    do 3 f_equal. lia.
Qed.

Lemma strip_digits ds :
  ds <> [] -> Forall (fun b => is_digit b = true) ds -> strip ds = ds.
Proof.
  intros Hne H. unfold strip.
  assert (Hl : lstrip ds = ds).
  { destruct ds as [|b t]; [easy|]. inversion H; subst. simpl.
    now destruct (digit_facts b) as [-> _]. }
  rewrite Hl. unfold rstrip.
  destruct (exists_last Hne) as [s [d ->]].
  rewrite rev_app_distr; simpl.
  apply Forall_app in H as [_ Hd]. inversion Hd; subst.
  destruct (digit_facts d) as [-> _]; [assumption|].
  now rewrite <- (rev_involutive s) at 2.
Qed.

(** A non-empty string of ASCII digits is read as its decimal value. *)
Lemma py_int_digits ds :
  ds <> [] -> Forall (fun b => is_digit b = true) ds ->
  py_int ds = Ret (dec_value ds).
Proof.
  intros Hne H. unfold py_int. rewrite strip_digits by assumption.
  destruct ds as [|b t]; [easy|].
  assert (Hb : is_digit b = true) by now inversion H.
  destruct (digit_facts b Hb) as (_ & Hm & Hp & _).
  unfold split_sign. rewrite Hm, Hp.
  rewrite digits_from_all by assumption.
  replace (0 <? 0 + Z.of_nat (length (b :: t))) with true
    by (symmetry; apply Z.ltb_lt; simpl length; lia).
  reflexivity.
Qed.

Lemma py_int_digit b : is_digit b = true -> py_int [b] = Ret (digit_val b).
Proof.
  intros Hb. rewrite py_int_digits by (discriminate || (repeat constructor; assumption)).
  unfold dec_value; simpl. f_equal; lia.
Qed.

(** ** [read_raw] *)

Lemma unpack_d_8 bs :
  length bs = 8%nat -> unpack_d bs = Ret (double_of_bits (le_value bs)).
Proof. intros H. unfold unpack_d. now rewrite H. Qed.



Lemma cmd_logs command w :
  VNA.cmd command w = (Ret tt, log (EvWrite DevVNA (command ++ nl)) w).
Proof. reflexivity. Qed.

Lemma log_log e1 e2 w : log e2 (log e1 w) = logs [e1; e2] w.
Proof. unfold log, logs; simpl. now rewrite <- app_assoc. Qed.

Lemma decode_ascii b : (byte_val b <? 128) = true -> decode [b] = Ret [b].
Proof. intros H. unfold decode; simpl. now rewrite H. Qed.

Lemma hash_eqb b : bytes_eqb [b] (B "#") = true <-> b = hash.
Proof.
  simpl. rewrite andb_true_r. split.
  - apply Byte.byte_dec_bl.
  - intros ->. reflexivity.
Qed.

(** The header of a block: marker, length of the length field, length
    field.  After it the decoder is in front of the payload. *)
Lemma read_raw_header w lb field tail :
  is_digit lb = true -> field <> [] ->
  Forall (fun b => is_digit b = true) field ->
  digit_val lb = Z.of_nat (length field) ->
  inbuf (vna_ser w) = hash :: lb :: field ++ tail ->
  VNA.read_raw w
  = bind (VNA.read_points (Z.to_nat (dec_value field / 16)) [])
         (fun r => bind (readline DevVNA) (fun _ => ret (Some r)))
         (set_inbuf DevVNA tail (logs trace_query w)).
Proof.
  intros Hlb Hne Hf Hlen Hin. unfold VNA.read_raw.
  erewrite bind_Ret by apply cmd_logs.
  erewrite bind_Ret by apply cmd_logs.
  rewrite log_log. fold trace_query.
  erewrite bind_Ret; cycle 1.
  { apply read_enough with (bs := [hash]) (rest := lb :: field ++ tail);
      [rewrite ser_logs; exact Hin | reflexivity]. }
  unfold lift at 1. erewrite bind_Ret by reflexivity.
  change (bytes_eqb [hash] (B "#")) with true. cbv iota.
  erewrite bind_Ret; cycle 1.
  { apply read_enough with (bs := [lb]) (rest := field ++ tail);
      [now rewrite inbuf_set_inbuf | reflexivity]. }
  destruct (digit_facts lb Hlb) as (_ & _ & _ & _ & Hascii).
  unfold lift at 1. erewrite bind_Ret by (rewrite decode_ascii by exact Hascii; reflexivity).
  unfold lift at 1. erewrite bind_Ret by (rewrite py_int_digit by exact Hlb; reflexivity).
  erewrite bind_Ret; cycle 1.
  { apply read_enough with (bs := field) (rest := tail);
      [now rewrite inbuf_set_inbuf | rewrite Hlen; symmetry; apply Nat2Z.id]. }
  unfold lift at 1. erewrite bind_Ret by (rewrite decode_digits by exact Hf; reflexivity).
  unfold lift at 1. erewrite bind_Ret by (rewrite py_int_digits by assumption; reflexivity).
  now rewrite !set_inbuf_twice.
Qed.








(** ** A stream that ends inside the payload *)

Lemma fst_bind_Ret {A C} (m : M A) (k : A -> M C) w a w' :
  m w = (Ret a, w') -> fst (bind m k w) = fst (k a w').
Proof. intros H. now rewrite (bind_Ret _ _ _ _ _ H). Qed.

Lemma read8_short (k : float -> M (list (float * float))) w :
  (length (inbuf (vna_ser w)) < 8)%nat ->
  fst (bind (read DevVNA 8)
            (fun b => bind (lift (unpack_d b)) k) w) = starved w.
Proof.
  intros Hlen. unfold bind, read, serial_read, starved; simpl ser.
  replace (8 <=? length (inbuf (vna_ser w)))%nat with false
    by (symmetry; apply Nat.leb_gt; exact Hlen).
  destruct (timeout (vna_ser w)); simpl; [|reflexivity].
  unfold lift, unpack_d.
  replace (length (inbuf (vna_ser w)) =? 8)%nat with false
    by (symmetry; apply Nat.eqb_neq; lia).
  reflexivity.
Qed.

Lemma starved_set_inbuf bs w : starved (set_inbuf DevVNA bs w) = starved w.
Proof. reflexivity. Qed.

Lemma read_points_short n : forall acc w,
  (length (inbuf (vna_ser w)) < 16 * n)%nat ->
  fst (VNA.read_points n acc w) = starved w.
Proof.
  induction n as [|n IH]; intros acc w Hlen; [lia|].
  cbn [VNA.read_points].
  remember (inbuf (vna_ser w)) as buf eqn:Hbuf.
  destruct (Nat.lt_ge_cases (length buf) 8) as [H8|H8].
  { apply read8_short. now rewrite <- Hbuf. }
  assert (H1 : length (firstn 8 buf) = 8%nat) by (rewrite length_firstn; lia).
  erewrite fst_bind_Ret; cycle 1.
  { apply read_enough with (rest := skipn 8 buf); [|exact H1].
    simpl ser. now rewrite <- Hbuf, firstn_skipn. }
  unfold lift at 1. erewrite fst_bind_Ret by (rewrite unpack_d_8 by exact H1; reflexivity).
  destruct (Nat.lt_ge_cases (length buf) 16) as [H16|H16].
  { rewrite read8_short; [apply starved_set_inbuf|].
    change (inbuf (vna_ser (set_inbuf DevVNA (skipn 8 buf) w)))
      with (skipn 8 buf).
    rewrite length_skipn. lia. }
  assert (H2 : length (firstn 8 (skipn 8 buf)) = 8%nat)
    by (rewrite length_firstn, length_skipn; lia).
  erewrite fst_bind_Ret; cycle 1.
  { apply read_enough with (rest := skipn 16 buf); [|exact H2].
    rewrite inbuf_set_inbuf.
    rewrite <- (firstn_skipn 8 (skipn 8 buf)) at 1.
    now rewrite skipn_skipn. }
  unfold lift at 1. erewrite fst_bind_Ret by (rewrite unpack_d_8 by exact H2; reflexivity).
  rewrite IH.
  - reflexivity.
  - rewrite set_inbuf_twice.
    change (inbuf (vna_ser (set_inbuf DevVNA (skipn 16 buf) w)))
      with (skipn 16 buf).
    rewrite length_skipn. lia.
Qed.

(** [VNA.__init__] opens the line without timeout and reads nothing. *)
Lemma VNA_init_no_timeout port baudrate w v w' :
  VNA.init port baudrate w = (Ret v, w') ->
  timeout (vna_ser w') = None /\ inbuf (vna_ser w') = inbuf (vna_ser w).
Proof.
  unfold VNA.init, bind, Serial_open.
  destruct (baudrate <? 0); [discriminate|]. simpl.
  intros H. injection H as _ <-. now split.
Qed.

(** C3, as stated, fails: after [VNA.__init__] a block that declares 16
    payload bytes and delivers 8 leaves the decoder blocked for ever; no
    error of any kind is raised. *)
Lemma read_raw_8_of_16_hangs :
  fst (VNA.read_raw
         (snd (VNA.init (B "/dev/ttyUSB1") 57600
                 (vna_world (B "#216" ++ le_one)))))
  = Hang.
Proof. vm_compute. reflexivity. Qed.

(** C3, amended: when the stream ends before the
    [16 * (dataLength // 16)] payload bytes that the decoding loop reads
    are there, the decoder is blocked for ever in one of its 8-byte reads
    on a line without timeout, which is how [VNA.__init__] opens it
    ([VNA_init_no_timeout]); on a line with a timeout the short read makes
    [unpack] raise [struct.error]. *)
Theorem read_raw_truncated w lb field partial :
  is_digit lb = true -> field <> [] ->
  Forall (fun b => is_digit b = true) field ->
  digit_val lb = Z.of_nat (length field) ->
  (length partial < 16 * Z.to_nat (dec_value field / 16))%nat ->
  inbuf (vna_ser w) = hash :: lb :: field ++ partial ->
  (timeout (vna_ser w) = None -> fst (VNA.read_raw w) = Hang)
  /\ (forall t, timeout (vna_ser w) = Some t ->
        fst (VNA.read_raw w) = Raise StructError).
Proof.
  intros Hlb Hne Hf Hlen Hshort Hin.
  assert (H : fst (VNA.read_raw w)
              = match timeout (vna_ser w) with
                | None => Hang
                | Some _ => Raise StructError
                end).
  { rewrite (read_raw_header w lb field partial Hlb Hne Hf Hlen Hin).
    unfold bind at 1.
    pose proof (read_points_short (Z.to_nat (dec_value field / 16)) []
                  (set_inbuf DevVNA partial (logs trace_query w))) as Hs.
    change (inbuf (vna_ser (set_inbuf DevVNA partial (logs trace_query w))))
      with partial in Hs.
    specialize (Hs Hshort). unfold starved in Hs.
    change (timeout (vna_ser (set_inbuf DevVNA partial (logs trace_query w))))
      with (timeout (vna_ser w)) in Hs.
    destruct (VNA.read_points _ _ _) as [r w1]; simpl in Hs; subst r.
    destruct (timeout (vna_ser w)); reflexivity. }
  split.
  - intros Ht. now rewrite H, Ht.
  - intros t Ht. now rewrite H, Ht.
Qed.

Lemma read_raw_truncated_witness :
  (timeout (vna_ser (vna_world (B "#216" ++ le_one))) = None ->
   fst (VNA.read_raw (vna_world (B "#216" ++ le_one))) = Hang)
  /\ (forall t, timeout (vna_ser (vna_world (B "#216" ++ le_one))) = Some t ->
        fst (VNA.read_raw (vna_world (B "#216" ++ le_one)))
        = Raise StructError).
Proof.
  apply (read_raw_truncated (vna_world (B "#216" ++ le_one)) "2"%byte
           (B "16") le_one).
  - reflexivity.
  - discriminate.
  - repeat constructor.
  - reflexivity.
  - vm_compute. lia.
  - reflexivity.
Defined.

(** ** A response that is no block *)

Lemma not_hash_eqb b : b <> hash -> bytes_eqb [b] (B "#") = false.
Proof.
  intros Hb. destruct (bytes_eqb [b] (B "#")) eqn:E; [|reflexivity].
  now apply hash_eqb in E.
Qed.

(** C8, as stated, fails twice.  A first byte [0xFF] is not the block
    marker, and the decoder raises [UnicodeDecodeError] on it instead of
    answering [None].  And on the text response [ERR] the decoder answers
    [None] after one byte: the rest of the line, [RR], stays in the
    buffer, and the next text query, here for the centre frequency, reads
    it instead of its own answer [1.5e9] and fails in [float]. *)
Lemma read_raw_text_misparse :
  "255"%byte <> hash
  /\ fst (VNA.read_raw (vna_world ("255"%byte :: ln "ERR")))
     = Raise UnicodeDecodeError
  /\ VNA.read_raw (vna_world (ln "ERR" ++ ln "1.5e9"))
     = (Ret None,
        set_inbuf DevVNA (ln "RR" ++ ln "1.5e9")
          (logs trace_query (vna_world (ln "ERR" ++ ln "1.5e9"))))
  /\ fst (bind VNA.read_raw (fun _ => VNA.get_center)
            (vna_world (ln "ERR" ++ ln "1.5e9")))
     = Raise ValueError.
Proof.
  split; [discriminate|].
  split; [|split]; vm_compute; reflexivity.
Qed.

(** On a first byte that is an ASCII character other than [#] the decoder
    answers [None] after this one byte. *)
Lemma read_raw_not_block w b rest :
  (byte_val b <? 128) = true -> b <> hash ->
  inbuf (vna_ser w) = b :: rest ->
  VNA.read_raw w = (Ret None, set_inbuf DevVNA rest (logs trace_query w)).
Proof.
  intros Hascii Hb Hin. unfold VNA.read_raw.
  erewrite bind_Ret by apply cmd_logs.
  erewrite bind_Ret by apply cmd_logs.
  rewrite log_log. fold trace_query.
  erewrite bind_Ret; cycle 1.
  { apply read_enough with (bs := [b]) (rest := rest);
      [rewrite ser_logs; exact Hin | reflexivity]. }
  unfold lift at 1.
  erewrite bind_Ret by (rewrite decode_ascii by exact Hascii; reflexivity).
  now rewrite not_hash_eqb.
Qed.

(** C8, amended: on a response whose first byte is an ASCII character
    other than [#] the decoder answers [None] and has consumed that one
    byte and nothing else; what follows it, the rest of the text line
    included, is still pending, and the next [readline] returns it. *)
Theorem read_raw_text w b rest :
  (byte_val b <? 128) = true -> b <> hash ->
  inbuf (vna_ser w) = b :: rest ->
  VNA.read_raw w = (Ret None, set_inbuf DevVNA rest (logs trace_query w))
  /\ forall line rest',
       rest = line ++ newline :: rest' -> ~ In newline line ->
       readline DevVNA (set_inbuf DevVNA rest (logs trace_query w))
       = (Ret (line ++ [newline]),
          set_inbuf DevVNA rest' (logs trace_query w)).
Proof.
  intros Hascii Hb Hin. split.
  - now apply read_raw_not_block with (b := b).
  - intros line rest' -> Hnl.
    rewrite (readline_found DevVNA line rest')
      by (try rewrite inbuf_set_inbuf; auto).
    now rewrite set_inbuf_twice.
Qed.

Lemma read_raw_text_witness :
  VNA.read_raw (vna_world (ln "ERR"))
  = (Ret None,
     set_inbuf DevVNA (ln "RR") (logs trace_query (vna_world (ln "ERR"))))
  /\ forall line rest',
       ln "RR" = line ++ newline :: rest' -> ~ In newline line ->
       readline DevVNA
         (set_inbuf DevVNA (ln "RR") (logs trace_query (vna_world (ln "ERR"))))
       = (Ret (line ++ [newline]),
          set_inbuf DevVNA rest' (logs trace_query (vna_world (ln "ERR")))).
Proof.
  apply (read_raw_text (vna_world (ln "ERR")) "E"%byte (ln "RR")).
  - reflexivity.
  - discriminate.
  - reflexivity.
Defined.

(** ** The averaging cycle *)



Lemma lift_bind {A C} (r : res A) (k : A -> M C) a w :
  r = Ret a -> bind (lift r) k w = k a w.
Proof. intros ->. reflexivity. Qed.



(** ** [write_raw] and [read_amp_phase] *)


Lemma write_raw_never_returns file w u : fst (VNA.write_raw file w) <> Ret u.
Proof.
  unfold VNA.write_raw, bind.
  destruct (VNA.read_raw w) as [[r|e| |] w']; simpl; discriminate.
Qed.







(** On a text response, whose first byte is an ASCII character other
    than [#], [read_amp_phase] raises [TypeError]. *)
Lemma read_amp_phase_text (atan2 : float -> float -> float) w b rest :
  (byte_val b <? 128) = true -> b <> hash ->
  inbuf (vna_ser w) = b :: rest ->
  VNA.read_amp_phase atan2 w
  = (Raise TypeError, set_inbuf DevVNA rest (logs trace_query w)).
Proof.
  intros Ha Hb Hin.
  unfold VNA.read_amp_phase.
  now rewrite (bind_Ret _ _ _ _ _ (read_raw_not_block w b rest Ha Hb Hin)).
Qed.

(** ** The trace only grows *)


Lemma grows_ret {A} (a : A) : grows (ret a).
Proof. intros w r w' H. injection H as _ <-. exists []. now rewrite app_nil_r. Qed.

Lemma grows_raise {A} e : grows (@raise A e).
Proof. intros w r w' H. injection H as _ <-. exists []. now rewrite app_nil_r. Qed.

Lemma grows_lift {A} (x : res A) : grows (lift x).
Proof. intros w r w' H. injection H as _ <-. exists []. now rewrite app_nil_r. Qed.

Lemma grows_out_of_fuel {A} : grows (@out_of_fuel A).
Proof. intros w r w' H. injection H as _ <-. exists []. now rewrite app_nil_r. Qed.

Lemma grows_emit e : grows (emit e).
Proof. intros w r w' H. injection H as _ <-. now exists [e]. Qed.

Lemma grows_write d bs : grows (write d bs).
Proof. apply grows_emit. Qed.

Lemma grows_read d n : grows (read d n).
Proof.
  intros w r w' H. unfold read in H.
  destruct (serial_read n (ser d w)) as [r0 s]. injection H as _ <-.
  exists []. rewrite app_nil_r. now destruct d.
Qed.

Lemma grows_readline d : grows (readline d).
Proof.
  intros w r w' H. unfold readline in H.
  destruct (serial_readline (ser d w)) as [r0 s]. injection H as _ <-.
  exists []. rewrite app_nil_r. now destruct d.
Qed.

Lemma grows_Serial_open d b t : grows (Serial_open d b t).
Proof.
  intros w r w' H. unfold Serial_open in H. exists []. rewrite app_nil_r.
  destruct (b <? 0); [now injection H as _ <-|].
  destruct t as [x|]; [destruct (PrimFloat.ltb x 0)|];
    injection H as _ <-; now destruct d.
Qed.

Lemma grows_sleep t : grows (sleep t).
Proof.
  unfold sleep.
  repeat match goal with
         | |- grows (if ?b then _ else _) => destruct b
         end; auto using grows_raise, grows_emit.
Qed.

Lemma grows_read_lines path : grows (read_lines path).
Proof.
  intros w r w' H. unfold read_lines in H. exists []. rewrite app_nil_r.
  destruct (lookup_file path (readable w)); now injection H as _ <-.
Qed.

Lemma grows_bind {A C} (m : M A) (k : A -> M C) :
  grows m -> (forall a, grows (k a)) -> grows (bind m k).
Proof.
  intros Hm Hk w r w' H. unfold bind in H.
  destruct (m w) as [r0 w1] eqn:E. destruct (Hm _ _ _ E) as [t1 H1].
  destruct r0 as [a|e| |].
  - destruct (Hk a _ _ _ H) as [t2 H2]. exists (t1 ++ t2).
    now rewrite H2, H1, app_assoc.
  - injection H as _ <-. now exists t1.
  - injection H as _ <-. now exists t1.
  - injection H as _ <-. now exists t1.
Qed.

Lemma grows_with_open {A} path (body : M A) :
  grows body -> grows (with_open path body).
Proof.
  intros Hb w r w' H. unfold with_open in H.
  destruct (body (log (EvOpen path) w)) as [r0 w1] eqn:E.
  destruct (Hb _ _ _ E) as [t1 H1]. simpl in H1.
  destruct r0; injection H as _ <-; simpl; rewrite H1, <- ?app_assoc;
    eauto.
Qed.

Create HintDb grows.
#[local] Hint Resolve grows_ret grows_raise grows_lift grows_out_of_fuel
  grows_emit grows_write grows_read grows_readline grows_Serial_open
  grows_sleep grows_read_lines grows_with_open : grows.

(** Splits a program into its binds and branches and closes the leaves
    with the lemmas of the database. *)
Ltac grows_tac :=
  repeat first
    [ solve [auto with grows]
    | apply grows_bind; [|intros]
    | match goal with
      | |- grows (if ?b then _ else _) => destruct b
      | |- grows (match ?x with _ => _ end) => destruct x
      end ].

Lemma grows_VNA_cmd c : grows (VNA.cmd c).
Proof. apply grows_write. Qed.

Lemma grows_Marker_cmd m c : grows (Marker.cmd m c).
Proof. apply grows_write. Qed.
#[local] Hint Resolve grows_VNA_cmd grows_Marker_cmd : grows.

Lemma grows_get_avg : grows VNA.get_avg.
Proof. unfold VNA.get_avg. grows_tac. Qed.

Lemma grows_get_sweeptime : grows VNA.get_sweeptime.
Proof. unfold VNA.get_sweeptime. grows_tac. Qed.
#[local] Hint Resolve grows_get_avg grows_get_sweeptime : grows.

Lemma grows_measurecycles : grows VNA.measurecycles.
Proof. unfold VNA.measurecycles, VNA.reset_avg. grows_tac. Qed.

Lemma grows_set_points p : grows (VNA.set_points p).
Proof. unfold VNA.set_points. grows_tac. Qed.

Lemma grows_set_power p : grows (VNA.set_power p).
Proof. unfold VNA.set_power. grows_tac. Qed.

Lemma grows_set_avg a : grows (VNA.set_avg a).
Proof. unfold VNA.set_avg. grows_tac. Qed.

Lemma grows_search_min m : grows (Marker.search_min m).
Proof. unfold Marker.search_min, Marker.get_pos. grows_tac. Qed.

Lemma grows_is_moving m : grows (Motor.is_moving m).
Proof. unfold Motor.is_moving, Motor.get. grows_tac. Qed.
#[local] Hint Resolve grows_measurecycles grows_set_points grows_set_power
  grows_set_avg grows_search_min grows_is_moving : grows.

Lemma grows_wait_motor self fuel : grows (Stoerkoerpermessung.wait_motor self fuel).
Proof. induction fuel; cbn [Stoerkoerpermessung.wait_motor]; grows_tac. Qed.
#[local] Hint Resolve grows_wait_motor : grows.

(** ** One point of the sweep *)

Lemma lift_inv {A} (r : res A) a w w' :
  lift r w = (Ret a, w') -> r = Ret a /\ w' = w.
Proof. unfold lift. intros H. injection H as -> ->. now split. Qed.

Lemma readline_trace d w r w' : readline d w = (r, w') -> trace w' = trace w.
Proof.
  unfold readline. destruct (serial_readline (ser d w)) as [r0 s].
  intros H. injection H as _ <-. now destruct d.
Qed.

(** A successful [move_to] has sent exactly the [MA] command of the
    position. *)
Lemma move_to_trace m pos w u w' :
  Motor.move_to m pos w = (Ret u, w') ->
  exists P, Motor.steps_of m pos = Ret P
            /\ trace w' = trace w ++ [move_command m P].
Proof.
  unfold Motor.move_to. intros H.
  apply bind_inv in H as (P & w1 & HP & H). apply lift_inv in HP as [HP ->].
  apply bind_inv in H as ([] & w2 & Hw & H). injection Hw as <-.
  apply bind_inv in H as (l & w3 & Hr & H). injection H as _ <-.
  apply readline_trace in Hr. exists P. split; [exact HP|].
  rewrite Hr. reflexivity.
Qed.

(** A frequency is obtained by a run that starts with the move to the
    position. *)
Lemma get_freq_at_trace self fuel pos w f w' :
  Stoerkoerpermessung.get_freq_at self fuel pos w = (Ret f, w') ->
  exists P t,
    Motor.steps_of (Stoerkoerpermessung.motor self) pos = Ret P
    /\ trace w'
       = trace w ++ move_command (Stoerkoerpermessung.motor self) P :: t.
Proof.
  unfold Stoerkoerpermessung.get_freq_at. intros H.
  repeat (apply bind_inv in H as (? & ? & Hl & H);
          apply lift_inv in Hl as [_ ->]).
  apply bind_inv in H as (u & w1 & Hm & H).
  apply move_to_trace in Hm as (P & HP & Ht).
  assert (Hg : exists t, trace w' = trace w1 ++ t).
  { match type of H with
    | ?m w1 = _ => assert (G : grows m) by grows_tac; exact (G _ _ _ H)
    end. }
  destruct Hg as [t Hg]. exists P, t. split; [exact HP|].
  rewrite Hg, Ht, <- app_assoc. reflexivity.
Qed.

Lemma bind_not_Ret {A C} (m : M A) (k : A -> M C) w :
  (forall a, fst (m w) <> Ret a) -> forall c, fst (bind m k w) <> Ret c.
Proof.
  intros H c. unfold bind. destruct (m w) as [[a| | |] w1]; simpl in *;
    try discriminate. now destruct (H a).
Qed.

(** With raw-curve capture switched on no point is ever completed. *)
Lemma capture_never_returns rc_mode rc_folder pos suffix appendix ext w u :
  truthy rc_mode = true ->
  fst (Stoerkoerpermessung.capture rc_mode rc_folder pos suffix appendix ext w)
  <> Ret u.
Proof.
  intros Hrc. unfold Stoerkoerpermessung.capture. rewrite Hrc.
  unfold bind, lift. destruct (int_of_float pos); simpl; try discriminate.
  apply write_raw_never_returns.
Qed.

(** C5: in checkmode a point at [pos] is measured by obtaining the
    frequency at the reference position first, in the world [w1] that
    this leaves the frequency at [pos], and then printing the row
    [pos, freq, f_ref, freq - f_ref]; in the trace the move to the
    reference position comes before the move to [pos], and the row comes
    last.  This is so when raw-curve capture is off; when it is on, the
    point is never completed and no row is printed. *)
Theorem point_checkmode self fuel cm_reference rc_mode checkmode rc_folder
        outf appendix ext pos w f_ref w1 freq w2 :
  truthy checkmode = true ->
  Stoerkoerpermessung.get_freq_at self fuel cm_reference
    (log (EvPrint None (B "Measuring: d = {} mm") [VFloat pos]) w)
  = (Ret f_ref, w1) ->
  Stoerkoerpermessung.get_freq_at self fuel pos w1 = (Ret freq, w2) ->
  (truthy rc_mode = false ->
   Stoerkoerpermessung.point self fuel cm_reference rc_mode checkmode
     rc_folder outf appendix ext pos w
   = (Ret tt, log (checkmode_row outf pos freq f_ref) w2)
   /\ exists Pref P t1 t2,
        Motor.steps_of (Stoerkoerpermessung.motor self) cm_reference = Ret Pref
        /\ Motor.steps_of (Stoerkoerpermessung.motor self) pos = Ret P
        /\ trace (log (checkmode_row outf pos freq f_ref) w2)
           = trace w
             ++ EvPrint None (B "Measuring: d = {} mm") [VFloat pos]
             :: move_command (Stoerkoerpermessung.motor self) Pref :: t1
             ++ move_command (Stoerkoerpermessung.motor self) P :: t2
             ++ [checkmode_row outf pos freq f_ref])
  /\ (truthy rc_mode = true ->
      forall u,
        fst (Stoerkoerpermessung.point self fuel cm_reference rc_mode
               checkmode rc_folder outf appendix ext pos w)
        <> Ret u).
Proof.
  intros Hchk Href Hpos. split.
  - intros Hrc. split.
    + unfold Stoerkoerpermessung.point.
      erewrite bind_Ret by reflexivity. rewrite Hchk.
      erewrite bind_Ret; cycle 1.
      { erewrite bind_Ret by exact Href.
        unfold Stoerkoerpermessung.capture. rewrite Hrc. reflexivity. }
      erewrite bind_Ret by exact Hpos.
      unfold Stoerkoerpermessung.capture. rewrite Hrc. reflexivity.
    + apply get_freq_at_trace in Href as (Pref & t1 & HPref & Ht1).
      apply get_freq_at_trace in Hpos as (P & t2 & HP & Ht2).
      exists Pref, P, t1, t2. repeat split; auto.
      simpl trace in *. rewrite Ht2, Ht1, <- !app_assoc. reflexivity.
  - intros Hrc u. unfold Stoerkoerpermessung.point.
    erewrite bind_Ret by reflexivity. rewrite Hchk.
    apply bind_not_Ret. intros a.
    erewrite bind_Ret by exact Href.
    apply bind_not_Ret. intros b. now apply capture_never_returns.
Qed.


Lemma point_checkmode_witness :
  (truthy (Some false) = false ->
   Stoerkoerpermessung.point (example_self []) 3 5%float (Some false)
     (Some true) (B "rc/") (B "out.dat") [] (B ".dat") 7%float checkmode_lab
   = (Ret tt,
      log (checkmode_row (B "out.dat") 7%float 1400000000%float
             1500000000%float) after_target)
   /\ exists Pref P t1 t2,
        Motor.steps_of (Stoerkoerpermessung.motor (example_self [])) 5%float
        = Ret Pref
        /\ Motor.steps_of (Stoerkoerpermessung.motor (example_self [])) 7%float
           = Ret P
        /\ trace (log (checkmode_row (B "out.dat") 7%float 1400000000%float
                         1500000000%float) after_target)
           = trace checkmode_lab
             ++ EvPrint None (B "Measuring: d = {} mm") [VFloat 7%float]
             :: move_command (Stoerkoerpermessung.motor (example_self [])) Pref
             :: t1
             ++ move_command (Stoerkoerpermessung.motor (example_self [])) P
             :: t2
             ++ [checkmode_row (B "out.dat") 7%float 1400000000%float
                   1500000000%float])
  /\ (truthy (Some false) = true ->
      forall u,
        fst (Stoerkoerpermessung.point (example_self []) 3 5%float
               (Some false) (Some true) (B "rc/") (B "out.dat") []
               (B ".dat") 7%float checkmode_lab)
        <> Ret u).
Proof.
  apply (point_checkmode (example_self []) 3 5%float (Some false) (Some true)
           (B "rc/") (B "out.dat") [] (B ".dat") 7%float checkmode_lab
           1500000000%float after_reference 1400000000%float after_target).
  - reflexivity.
  - vm_compute. reflexivity.
  - vm_compute. reflexivity.
Defined.

(** ** The positions of a sweep *)

Lemma while_sweep_go body stop stepsize f pos ps :
  PrimFloat.ltb (PrimFloat.opp epsilon) (PrimFloat.sub stop pos) = true ->
  (forall w, while_sweep body stop stepsize f (PrimFloat.add pos stepsize) w
             = visit body ps w) ->
  forall w, while_sweep body stop stepsize (S f) pos w
            = visit body (pos :: ps) w.
Proof.
  intros Hg IH w. cbn [while_sweep visit]. rewrite Hg.
  unfold bind. destruct (body pos w) as [[[]|e| |] w1]; auto.
Qed.

Lemma while_sweep_end body stop stepsize f pos :
  PrimFloat.ltb (PrimFloat.opp epsilon) (PrimFloat.sub stop pos) = false ->
  forall w, while_sweep body stop stepsize (S f) pos w = visit body [] w.
Proof. intros Hg w. cbn [while_sweep visit]. now rewrite Hg. Qed.

(** C4: with [Steps = 5] and no [StepSize], a sweep from 0 to 10 has the
    step 2.0, and its loop runs the body at 0, 2, 4, 6, 8 and 10, in this
    order and once each, whatever the body does; 7 turns of fuel or more
    are enough for the loop to end by its guard. *)
Theorem sweep_0_10_in_5_steps settings self k cm_reference rc_mode checkmode
        rc_folder outf appendix ext :
  settings !! "steps"%string = Some (B "5") ->
  settings !! "stepsize"%string = None ->
  Stoerkoerpermessung.plan_stepsize settings 0%float 10%float = Ret 2%float
  /\ (forall body w,
        while_sweep body 10%float 2%float (7 + k) 0%float w
        = visit body [0; 2; 4; 6; 8; 10]%float w)
  /\ forall w,
       Stoerkoerpermessung.sweep self (7 + k) 0%float 10%float 2%float
         cm_reference rc_mode checkmode rc_folder outf appendix ext w
       = visit (fun pos =>
                  Stoerkoerpermessung.point self (7 + k) cm_reference rc_mode
                    checkmode rc_folder outf appendix ext pos ;;
                  emit (EvFlush outf))
               [0; 2; 4; 6; 8; 10]%float w.
Proof.
  intros Hsteps Hsize.
  assert (Hloop : forall body w,
             while_sweep body 10%float 2%float (7 + k) 0%float w
             = visit body [0; 2; 4; 6; 8; 10]%float w).
  { intros body. cbn [Nat.add].
    do 6 (apply while_sweep_go; [reflexivity|]).
    apply while_sweep_end. reflexivity. }
  split; [|split].
  - unfold Stoerkoerpermessung.plan_stepsize, has_option, item.
    change (optionxform "StepSize") with "stepsize"%string.
    change (optionxform "Steps") with "steps"%string.
    unfold SectionProxy, str, bytes in *. rewrite Hsteps, Hsize. reflexivity.
  - exact Hloop.
  - intros w. unfold Stoerkoerpermessung.sweep. apply Hloop.
Qed.

Lemma sweep_0_10_in_5_steps_witness :
  Stoerkoerpermessung.plan_stepsize
    (list_to_map [("steps"%string, B "5")]) 0%float 10%float
  = Ret 2%float
  /\ (forall body w,
        while_sweep body 10%float 2%float (7 + 0) 0%float w
        = visit body [0; 2; 4; 6; 8; 10]%float w)
  /\ forall w,
       Stoerkoerpermessung.sweep (example_self []) (7 + 0) 0%float 10%float
         2%float 5%float None None [] (B "out.dat") [] (B ".dat") w
       = visit (fun pos =>
                  Stoerkoerpermessung.point (example_self []) (7 + 0) 5%float
                    None None [] (B "out.dat") [] (B ".dat") pos ;;
                  emit (EvFlush (B "out.dat")))
               [0; 2; 4; 6; 8; 10]%float w.
Proof.
  apply (sweep_0_10_in_5_steps (list_to_map [("steps"%string, B "5")])
           (example_self []) 0 5%float None None [] (B "out.dat") []
           (B ".dat")).
  - vm_compute. reflexivity.
  - vm_compute. reflexivity.
Defined.

(** ** The check of the plan comes after the constructor *)

Lemma grows_send_settings m conf : grows (Motor.send_settings m conf).
Proof. induction conf; cbn [Motor.send_settings]; grows_tac. Qed.
#[local] Hint Resolve grows_send_settings : grows.

Lemma grows_load_motor_config m file : grows (Motor.load_motor_config m file).
Proof. unfold Motor.load_motor_config. grows_tac. Qed.
#[local] Hint Resolve grows_load_motor_config : grows.

Lemma grows_init_motor cfg : grows (Stoerkoerpermessung.init_motor cfg).
Proof. unfold Stoerkoerpermessung.init_motor. grows_tac. Qed.

(** [VNA.__init__] sends the remote lock, and nothing else. *)
Lemma VNA_init_trace port baudrate w v w' :
  VNA.init port baudrate w = (Ret v, w') ->
  trace w' = trace w ++ [EvWrite DevVNA (B "@REM" ++ nl)].
Proof.
  unfold VNA.init, bind, Serial_open.
  destruct (baudrate <? 0); [discriminate|]. simpl.
  intros H. injection H as _ <-. reflexivity.
Qed.

(** A constructor that returns has sent the remote lock to the VNA. *)
Lemma init_trace config_file cfg filename w self w' :
  Stoerkoerpermessung.init config_file cfg filename w = (Ret self, w') ->
  Stoerkoerpermessung.config self = cfg
  /\ exists t1 t2,
       trace w' = trace w ++ t1 ++ EvWrite DevVNA (B "@REM" ++ nl) :: t2.
Proof.
  unfold Stoerkoerpermessung.init. intros H.
  apply bind_inv in H as (m & wa & Hm & H).
  apply bind_inv in H as (v & wb & Hv & H).
  injection H as <- <-. split; [reflexivity|].
  destruct (grows_init_motor cfg _ _ _ Hm) as [t1 Ht1].
  unfold Stoerkoerpermessung.init_vna in Hv.
  repeat (apply bind_inv in Hv as (? & ? & Hl & Hv);
          apply lift_inv in Hl as [_ ->]).
  apply bind_inv in Hv as (v0 & wc & Hi & Hv).
  apply VNA_init_trace in Hi.
  assert (Hg : exists t, trace wb = trace wc ++ t).
  { match type of Hv with
    | ?k wc = _ => assert (G : grows k) by grows_tac; exact (G _ _ _ Hv)
    end. }
  destruct Hg as [t2 Ht2]. exists t1, t2.
  rewrite Ht2, Hi, Ht1, <- !app_assoc. reflexivity.
Qed.

(** When both or none of [StepSize] and [Steps] are given, [measure]
    raises [RuntimeError] and has done nothing to the outside. *)
Lemma measure_plan_error self fuel w settings s :
  section (Stoerkoerpermessung.config self) "MEASUREMENT" = Ret settings ->
  Stoerkoerpermessung.read_settings settings = Ret s ->
  has_option settings "StepSize" = has_option settings "Steps" ->
  Stoerkoerpermessung.measure self fuel w = (Raise RuntimeError, w).
Proof.
  intros Hsec Hs Hboth. unfold Stoerkoerpermessung.measure.
  rewrite (lift_bind _ _ _ _ Hsec), (lift_bind _ _ _ _ Hs).
  assert (Hp : forall a b,
             Stoerkoerpermessung.plan_stepsize settings a b = Raise RuntimeError).
  { intros a b. unfold Stoerkoerpermessung.plan_stepsize. rewrite Hboth.
    now destruct (has_option settings "Steps"). }
  destruct (PrimFloat.ltb _ _); unfold bind, lift; now rewrite Hp.
Qed.


(** C7, as stated, fails: with both [StepSize] and [Steps] in the
    configuration, and likewise with none of them, the program raises
    [RuntimeError] only after the constructor has sent the motor its
    configuration and the VNA its set-up, and has waited for a first
    averaging cycle. *)
Lemma main_plan_error_after_hardware :
  (has_option (example_measurement plan_both) "StepSize" = true
   /\ has_option (example_measurement plan_both) "Steps" = true
   /\ Stoerkoerpermessung.main (B "example.ini") (example_config plan_both)
        (B "out.dat") 10 before_init
      = (Raise RuntimeError,
         snd (Stoerkoerpermessung.init (B "example.ini")
                (example_config plan_both) (B "out.dat") before_init))
   /\ trace (snd (Stoerkoerpermessung.main (B "example.ini")
                    (example_config plan_both) (B "out.dat") 10 before_init))
      = init_events)
  /\ (has_option (example_measurement []) "StepSize" = false
      /\ has_option (example_measurement []) "Steps" = false
      /\ fst (Stoerkoerpermessung.main (B "example.ini") (example_config [])
                (B "out.dat") 10 before_init)
         = Raise RuntimeError
      /\ trace (snd (Stoerkoerpermessung.main (B "example.ini")
                       (example_config []) (B "out.dat") 10 before_init))
         = init_events).
Proof.
  split; (split; [|split; [|split]]); vm_compute; reflexivity.
Qed.

(** C7, amended: when both or none of [StepSize] and [Steps] are given
    and the other settings of the measurement are readable, the program
    ends in [RuntimeError], raised by [measure] before [measure] itself
    has sent any command or opened any file: the world is the one the
    constructor left.  By then the constructor has sent at least the
    remote lock to the VNA. *)
Theorem main_plan_error config_file cfg filename fuel w self w1 settings s :
  Stoerkoerpermessung.init config_file cfg filename w = (Ret self, w1) ->
  section cfg "MEASUREMENT" = Ret settings ->
  Stoerkoerpermessung.read_settings settings = Ret s ->
  has_option settings "StepSize" = has_option settings "Steps" ->
  Stoerkoerpermessung.main config_file cfg filename fuel w
  = (Raise RuntimeError, w1)
  /\ Stoerkoerpermessung.measure self fuel w1 = (Raise RuntimeError, w1)
  /\ exists t1 t2,
       trace w1 = trace w ++ t1 ++ EvWrite DevVNA (B "@REM" ++ nl) :: t2.
Proof.
  intros Hinit Hsec Hs Hboth.
  destruct (init_trace _ _ _ _ _ _ Hinit) as [Hcfg Htrace].
  assert (Hm : Stoerkoerpermessung.measure self fuel w1
               = (Raise RuntimeError, w1)).
  { apply measure_plan_error with (settings := settings) (s := s); auto.
    now rewrite Hcfg. }
  split; [|split]; auto.
  unfold Stoerkoerpermessung.main. now rewrite (bind_Ret _ _ _ _ _ Hinit).
Qed.

Lemma main_plan_error_witness :
  Stoerkoerpermessung.main (B "example.ini") (example_config plan_both)
    (B "out.dat") 10 before_init
  = (Raise RuntimeError,
     snd (Stoerkoerpermessung.init (B "example.ini")
            (example_config plan_both) (B "out.dat") before_init))
  /\ Stoerkoerpermessung.measure (example_self plan_both) 10
       (snd (Stoerkoerpermessung.init (B "example.ini")
               (example_config plan_both) (B "out.dat") before_init))
     = (Raise RuntimeError,
        snd (Stoerkoerpermessung.init (B "example.ini")
               (example_config plan_both) (B "out.dat") before_init))
  /\ exists t1 t2,
       trace (snd (Stoerkoerpermessung.init (B "example.ini")
                     (example_config plan_both) (B "out.dat") before_init))
       = trace before_init ++ t1 ++ EvWrite DevVNA (B "@REM" ++ nl) :: t2.
Proof.
  apply (main_plan_error (B "example.ini") (example_config plan_both)
           (B "out.dat") 10 before_init (example_self plan_both)
           (snd (Stoerkoerpermessung.init (B "example.ini")
                   (example_config plan_both) (B "out.dat") before_init))
           (example_measurement plan_both)
           (Stoerkoerpermessung.mkSettings 0%float 10%float (Some false)
              (Some false) (B "rc/") (Some true) 5%float)).
  - vm_compute. reflexivity.
  - vm_compute. reflexivity.
  - vm_compute. reflexivity.
  - vm_compute. reflexivity.
Defined.

(** ** [str(int)] read back by [int(str)] *)

Lemma digit_byte d :
  0 <= d < 10 ->
  exists b, Byte.of_N (Z.to_N (48 + d)) = Some b
            /\ is_digit b = true /\ digit_val b = d.
Proof.
  intros H.
  assert (C : d = 0 \/ d = 1 \/ d = 2 \/ d = 3 \/ d = 4 \/ d = 5 \/ d = 6
              \/ d = 7 \/ d = 8 \/ d = 9) by lia.
  repeat (destruct C as [->|C]; [eexists; repeat split; reflexivity|]).
  subst d. eexists; repeat split; reflexivity.
Qed.

Lemma dec_value_snoc ds b : dec_value (ds ++ [b]) = 10 * dec_value ds + digit_val b.
Proof. unfold dec_value. now rewrite fold_left_app. Qed.

Lemma dec_digits_S f n acc :
  dec_digits (S f) n acc
  = let d := match Byte.of_N (Z.to_N (48 + n mod 10)) with
             | Some b => b
             | None => "0"%byte
             end in
    if n <? 10 then d :: acc else dec_digits f (n / 10) (d :: acc).
Proof. reflexivity. Qed.

Lemma dec_digits_spec f : forall n acc,
  0 <= n < 2 ^ Z.of_nat (S f) ->
  exists ds, dec_digits (S f) n acc = ds ++ acc
             /\ ds <> [] /\ Forall (fun b => is_digit b = true) ds
             /\ dec_value ds = n.
Proof.
  induction f as [|f IH]; intros n acc Hn.
  - assert (Hd : 0 <= n mod 10 < 10) by (apply Z.mod_pos_bound; lia).
    destruct (digit_byte _ Hd) as (b & Hb & Hdig & Hv).
    rewrite dec_digits_S, Hb. cbv zeta.
    change (2 ^ Z.of_nat 1) with 2 in Hn.
    replace (n <? 10) with true by (symmetry; apply Z.ltb_lt; lia).
    exists [b]. repeat split; [discriminate|now repeat constructor|].
    unfold dec_value; simpl. rewrite Hv. rewrite Z.mod_small; lia.
  - assert (Hd : 0 <= n mod 10 < 10) by (apply Z.mod_pos_bound; lia).
    destruct (digit_byte _ Hd) as (b & Hb & Hdig & Hv).
    rewrite dec_digits_S, Hb. cbv zeta.
    destruct (n <? 10) eqn:E.
    + apply Z.ltb_lt in E. exists [b].
      repeat split; [discriminate|now repeat constructor|].
      unfold dec_value; simpl. rewrite Hv. rewrite Z.mod_small; lia.
    + apply Z.ltb_ge in E.
      assert (Hq : 0 <= n / 10 < 2 ^ Z.of_nat (S f)).
      { split; [apply Z.div_pos; lia|].
        apply Z.div_lt_upper_bound; [lia|].
        rewrite (Nat2Z.inj_succ (S f)), Z.pow_succ_r in Hn by lia. lia. }
      destruct (IH (n / 10) (b :: acc) Hq) as (ds & Heq & Hne & Hall & Hval).
      exists (ds ++ [b]). repeat split.
      * rewrite Heq, <- app_assoc. reflexivity.
      * intros C. now apply app_eq_nil in C as [_ C].
      * apply Forall_app. split; [assumption|now repeat constructor].
      * rewrite dec_value_snoc, Hval, Hv.
        pose proof (Z.div_mod n 10). lia.
Qed.

Lemma log2_fuel n : 0 <= n -> 0 <= n < 2 ^ Z.of_nat (S (Z.to_nat (Z.log2 n))).
Proof.
  intros Hn. rewrite Nat2Z.inj_succ, Z2Nat.id by apply Z.log2_nonneg.
  split; [assumption|].
  destruct (Z.eq_dec n 0) as [->|Hz]; [reflexivity|].
  apply Z.log2_spec. lia.
Qed.

(** The text of a natural number: decimal digits whose value it is. *)
Lemma str_of_int_nonneg n :
  0 <= n ->
  str_of_int n <> [] /\ Forall (fun b => is_digit b = true) (str_of_int n)
  /\ dec_value (str_of_int n) = n.
Proof.
  intros Hn. unfold str_of_int.
  replace (n <? 0) with false by (symmetry; apply Z.ltb_ge; lia).
  destruct (dec_digits_spec _ n [] (log2_fuel n Hn)) as (ds & -> & H).
  now rewrite app_nil_r.
Qed.

Lemma str_of_int_neg n :
  n < 0 ->
  exists ds, str_of_int n = "-"%byte :: ds /\ ds <> []
             /\ Forall (fun b => is_digit b = true) ds /\ dec_value ds = - n.
Proof.
  intros Hn. unfold str_of_int.
  replace (n <? 0) with true by (symmetry; apply Z.ltb_lt; lia).
  assert (H0 : 0 <= - n) by lia.
  destruct (dec_digits_spec _ (- n) [] (log2_fuel _ H0)) as (ds & -> & H).
  exists ds. now rewrite app_nil_r.
Qed.

Lemma rstrip_digit_end s d :
  is_digit d = true -> rstrip (s ++ [d]) = s ++ [d].
Proof.
  intros Hd. unfold rstrip. rewrite rev_app_distr. simpl.
  destruct (digit_facts d Hd) as [-> _].
  change (rev (d :: rev s)) with (rev (rev s) ++ [d]).
  now rewrite rev_involutive.
Qed.

(** [int(str(n))] is [n]. *)
Lemma py_int_str_of_int n : py_int (str_of_int n) = Ret n.
Proof.
  destruct (Z.lt_ge_cases n 0) as [Hn|Hn].
  - destruct (str_of_int_neg n Hn) as (ds & -> & Hne & Hall & Hval).
    unfold py_int, strip. cbn [lstrip]. change (is_space "-"%byte) with false.
    cbv iota.
    destruct (exists_last Hne) as (s & d & ->).
    assert (Hd : is_digit d = true).
    { apply Forall_app in Hall as [_ Hd]. now inversion Hd. }
    change ("-"%byte :: s ++ [d]) with (("-"%byte :: s) ++ [d]).
    rewrite rstrip_digit_end by assumption.
    cbn [app split_sign]. change (byte_eqb "-"%byte "-"%byte) with true.
    cbv iota. rewrite digits_from_all by assumption.
    replace (0 <? 0 + Z.of_nat (length (s ++ [d]))) with true
      by (symmetry; apply Z.ltb_lt; rewrite length_app; simpl; lia).
    fold (dec_value (s ++ [d])). rewrite Hval. f_equal. lia.
  - destruct (str_of_int_nonneg n Hn) as (Hne & Hall & Hval).
    rewrite py_int_digits by assumption. now rewrite Hval.
Qed.
(** ** The settings of the VNA *)

(** X1: an analyser object holds exactly the markers 1 to 4, each with the
    command prefix of its own number; any other key is missing from
    [mark]. *)
Theorem init_markers port baudrate w v w' i :
  VNA.init port baudrate w = (Ret v, w') ->
  VNA.mark v !! i
  = if (1 <=? i) && (i <=? 4) then
      Some (Marker.mk i (B "CALC:MARK" ++ str_of_int i ++ B ":"))
    else None.
Proof.
  unfold VNA.init. intros H.
  apply bind_inv in H as (u1 & w1 & _ & H).
  apply bind_inv in H as (u2 & w2 & _ & H).
  injection H as <- _. cbn [VNA.mark].
  unfold VNA.markers. cbn [foldl].
  destruct (decide (i = 4)) as [->|H4]; [now rewrite lookup_insert|].
  rewrite lookup_insert_ne by congruence.
  destruct (decide (i = 3)) as [->|H3]; [now rewrite lookup_insert|].
  rewrite lookup_insert_ne by congruence.
  destruct (decide (i = 2)) as [->|H2]; [now rewrite lookup_insert|].
  rewrite lookup_insert_ne by congruence.
  destruct (decide (i = 1)) as [->|H1]; [now rewrite lookup_insert|].
  rewrite lookup_insert_ne by congruence.
  rewrite lookup_empty.
  destruct ((1 <=? i) && (i <=? 4)) eqn:E; [|reflexivity].
  apply andb_true_iff in E as [E1 E2].
  apply Z.leb_le in E1, E2. lia.
Qed.

Lemma init_markers_witness :
  VNA.mark (VNA.mk VNA.markers) !! 5 = None.
Proof.
  apply (init_markers (B "/dev/ttyUSB1") 57600 (vna_world [])
           (VNA.mk VNA.markers)
           (log (EvWrite DevVNA (B "@REM" ++ nl))
                (set_ser DevVNA (mkSerial None []) (vna_world []))) 5).
  reflexivity.
Defined.

(** X2: whatever number of points is asked for, the analyser is sent a
    number between 3 and 2001: the request itself when it is in this range,
    the nearer bound otherwise.  The command is the only thing that
    happens, and its number is the decimal text of that value. *)
Theorem set_points_clamped pts w :
  exists n, n = Z.max 3 (Z.min 2001 pts) /\ 3 <= n <= 2001
    /\ py_int (str_of_int n) = Ret n
    /\ VNA.set_points pts w
       = (Ret tt,
          log (EvWrite DevVNA (B "SENSE:SWEEP:POINTS " ++ str_of_int n ++ nl)) w).
Proof.
  exists (Z.max 3 (Z.min 2001 pts)).
  split; [reflexivity|]. split; [lia|]. split; [apply py_int_str_of_int|].
  unfold VNA.set_points, VNA.cmd, write, emit, encode.
  rewrite <- app_assoc.
  destruct (2001 <? pts) eqn:E1.
  - apply Z.ltb_lt in E1. replace (Z.max 3 (Z.min 2001 pts)) with 2001 by lia.
    reflexivity.
  - apply Z.ltb_ge in E1. destruct (pts <? 3) eqn:E2.
    + apply Z.ltb_lt in E2. replace (Z.max 3 (Z.min 2001 pts)) with 3 by lia.
      reflexivity.
    + apply Z.ltb_ge in E2. replace (Z.max 3 (Z.min 2001 pts)) with pts by lia.
      reflexivity.
Qed.

(** X3: whatever power is asked for, the analyser is sent a level between
    -17 and 6 dBm: the request itself when it is in this range, the nearer
    bound otherwise. *)
Theorem set_power_clamped P w :
  exists n, n = Z.max (-17) (Z.min 6 P) /\ -17 <= n <= 6
    /\ py_int (str_of_int n) = Ret n
    /\ VNA.set_power P w
       = (Ret tt,
          log (EvWrite DevVNA
                 (B "SOURCE:POWER " ++ str_of_int n ++ B "dBm" ++ nl)) w).
Proof.
  exists (Z.max (-17) (Z.min 6 P)).
  split; [reflexivity|]. split; [lia|]. split; [apply py_int_str_of_int|].
  unfold VNA.set_power, VNA.cmd, write, emit, encode.
  rewrite <- !app_assoc.
  destruct (6 <? P) eqn:E1.
  - apply Z.ltb_lt in E1. replace (Z.max (-17) (Z.min 6 P)) with 6 by lia.
    reflexivity.
  - apply Z.ltb_ge in E1. destruct (P <? -17) eqn:E2.
    + apply Z.ltb_lt in E2. replace (Z.max (-17) (Z.min 6 P)) with (-17) by lia.
      reflexivity.
    + apply Z.ltb_ge in E2. replace (Z.max (-17) (Z.min 6 P)) with P by lia.
      reflexivity.
Qed.
(** ** Markers *)


Lemma decode_valid bs : utf8_valid bs = true -> decode bs = Ret bs.
Proof. unfold decode. now intros ->. Qed.


(** ** motor.py *)






Lemma readline_silent d w t :
  timeout (ser d w) = Some t -> inbuf (ser d w) = [] ->
  readline d w = (Ret [], set_inbuf d [] w).
Proof.
  intros Ht Hin. unfold readline, serial_readline, set_inbuf.
  rewrite Hin, Ht. reflexivity.
Qed.

Lemma Motor_get_silent m var w t :
  timeout (motor_ser w) = Some t -> inbuf (motor_ser w) = [] ->
  Motor.get m var w
  = (Ret [], set_inbuf DevMotor [] (log (motor_query m var) w)).
Proof.
  intros Ht Hin. unfold Motor.get, write, encode.
  erewrite bind_Ret by reflexivity.
  erewrite bind_Ret; cycle 1.
  { apply readline_silent with (t := t); rewrite ser_log; assumption. }
  erewrite bind_Ret; cycle 1.
  { apply readline_silent with (t := t);
      [now rewrite timeout_set_inbuf, ser_log | now rewrite inbuf_set_inbuf]. }
  now rewrite set_inbuf_twice.
Qed.

(** X6: when the motor stays silent until the timeout of its line, every
    query that reads a number ends in [ValueError], after the query was
    sent: the empty answer is no integer.  In particular [is_moving] does
    not report a motor at rest. *)
Theorem Motor_silent_ValueError m w t :
  timeout (motor_ser w) = Some t -> inbuf (motor_ser w) = [] ->
  let gone var :=
    set_inbuf DevMotor []
      (log (EvWrite DevMotor (Motor.name m ++ B "PR " ++ var ++ nl)) w) in
  Motor.is_moving m w = (Raise ValueError, gone (B "MV"))
  /\ Motor.pos m w = (Raise ValueError, gone (B "P"))
  /\ Motor.is_at_limit_high m w = (Raise ValueError, gone (B "I1"))
  /\ Motor.is_at_limit_low m w = (Raise ValueError, gone (B "I2"))
  /\ Motor.analog_pos m w = (Raise ValueError, gone (B "I5")).
Proof.
  intros Ht Hin gone.
  unfold Motor.is_moving, Motor.pos, Motor.is_at_limit_high,
    Motor.is_at_limit_low, Motor.analog_pos.
  repeat split;
    erewrite bind_Ret by (apply Motor_get_silent with (t := t); assumption);
    reflexivity.
Qed.

Lemma Motor_silent_ValueError_witness :
  fst (Motor.is_moving (Motor.init (B "D")) (lab [] [])) = Raise ValueError.
Proof.
  pose proof (Motor_silent_ValueError (Motor.init (B "D")) (lab [] []) 1%float
                eq_refl eq_refl) as H.
  cbv zeta in H. destruct H as [H _]. rewrite H. reflexivity.
Defined.

(** X7: with a scaling of zero (of either sign) no relative move, speed
    or absolute move is possible: each ends in [ZeroDivisionError] before
    anything is written to the motor. *)
Theorem Motor_zero_scaling m x w :
  PrimFloat.eqb (Motor.scaling m) 0%float = true ->
  Motor.move m x w = (Raise ZeroDivisionError, w)
  /\ Motor.speed m x w = (Raise ZeroDivisionError, w)
  /\ Motor.move_to m x w = (Raise ZeroDivisionError, w).
Proof.
  intros H.
  unfold Motor.move, Motor.speed, Motor.move_to, Motor.steps_of, py_div.
  rewrite H. repeat split.
Qed.

Lemma Motor_zero_scaling_witness :
  Motor.move_to (Motor.mk (B "D") (-0)%float) 7%float (lab [] [])
  = (Raise ZeroDivisionError, lab [] []).
Proof.
  apply (Motor_zero_scaling (Motor.mk (B "D") (-0)%float) 7%float (lab [] [])).
  reflexivity.
Defined.

(** *** The polling loop *)







(** *** The configuration of the motor *)






(** ** The plan of the sweep *)

(** X11: with [Steps = 0] and no [StepSize] the division that gives the
    step raises [ZeroDivisionError]; [measure] ends in it before it has
    done anything to the outside. *)
Theorem measure_zero_steps self fuel w settings s text :
  section (Stoerkoerpermessung.config self) "MEASUREMENT" = Ret settings ->
  Stoerkoerpermessung.read_settings settings = Ret s ->
  has_option settings "StepSize" = false ->
  item settings "Steps" = Ret text ->
  py_int text = Ret 0 ->
  Stoerkoerpermessung.measure self fuel w = (Raise ZeroDivisionError, w).
Proof.
  intros Hsec Hs Hsz Hst Hint. unfold Stoerkoerpermessung.measure.
  rewrite (lift_bind _ _ _ _ Hsec), (lift_bind _ _ _ _ Hs).
  assert (Hp : forall a b,
             Stoerkoerpermessung.plan_stepsize settings a b
             = Raise ZeroDivisionError).
  { intros a b. unfold Stoerkoerpermessung.plan_stepsize.
    assert (Hh : has_option settings "Steps" = true).
    { unfold item in Hst. unfold has_option.
      now destruct (settings !! optionxform "Steps"). }
    rewrite Hsz, Hh, Hst. cbn [xorb negb res_bind]. rewrite Hint.
    reflexivity. }
  destruct (PrimFloat.ltb _ _); unfold bind, lift; now rewrite Hp.
Qed.

Lemma measure_zero_steps_witness :
  Stoerkoerpermessung.measure (example_self [("steps"%string, B "0")]) 3
    (lab [] [])
  = (Raise ZeroDivisionError, lab [] []).
Proof.
  apply (measure_zero_steps (example_self [("steps"%string, B "0")]) 3
           (lab [] []) (example_measurement [("steps"%string, B "0")])
           (Stoerkoerpermessung.mkSettings 0%float 10%float (Some false)
              (Some false) (B "rc/") (Some true) 5%float)
           (B "0")).
  - vm_compute. reflexivity.
  - vm_compute. reflexivity.
  - vm_compute. reflexivity.
  - vm_compute. reflexivity.
  - vm_compute. reflexivity.
Defined.

Lemma while_sweep_stuck body stop stepsize pos :
  PrimFloat.ltb (PrimFloat.opp epsilon) (PrimFloat.sub stop pos) = true ->
  PrimFloat.add pos stepsize = pos ->
  forall fuel w u, fst (while_sweep body stop stepsize fuel pos w) <> Ret u.
Proof.
  intros Hg Hadd. induction fuel as [|f IH]; intros w u.
  - discriminate.
  - cbn [while_sweep]. rewrite Hg, Hadd. unfold bind.
    destruct (body pos w) as [[[]|e| |] w1]; try discriminate. apply IH.
Qed.

(** X12: when adding the step leaves a position within the range where
    it is (a step of zero, or one below the resolution of the position),
    the loop over the positions never ends: whatever the number of turns
    it is given, it does not return. *)
Theorem sweep_stuck self fuel start stop stepsize cm_reference rc_mode
        checkmode rc_folder outf appendix ext w u :
  PrimFloat.ltb (PrimFloat.opp epsilon) (PrimFloat.sub stop start) = true ->
  PrimFloat.add start stepsize = start ->
  fst (Stoerkoerpermessung.sweep self fuel start stop stepsize cm_reference
         rc_mode checkmode rc_folder outf appendix ext w) <> Ret u.
Proof.
  intros Hg Hadd. unfold Stoerkoerpermessung.sweep.
  now apply while_sweep_stuck.
Qed.

(** With [Start = Stop = 5] and [Steps = 5] the step is 0. *)
Lemma sweep_stuck_witness :
  Stoerkoerpermessung.plan_stepsize
    (example_measurement [("steps"%string, B "5")]) 5%float 5%float
  = Ret 0%float
  /\ fst (Stoerkoerpermessung.sweep (example_self [("steps"%string, B "5")])
            4 5%float 5%float 0%float 5%float None None (B "rc/")
            (B "out.dat") [] (B ".dat")
            (lab (vna_point "1.5e9") motor_point)) <> Ret tt.
Proof.
  split; [vm_compute; reflexivity|].
  apply (sweep_stuck (example_self [("steps"%string, B "5")]) 4 5%float
           5%float 0%float 5%float None None (B "rc/") (B "out.dat") []
           (B ".dat") (lab (vna_point "1.5e9") motor_point) tt).
  - reflexivity.
  - reflexivity.
Defined.
(** ** The trace of a whole measurement only grows *)

Lemma grows_get_center : grows VNA.get_center.
Proof. unfold VNA.get_center. grows_tac. Qed.

Lemma grows_get_span : grows VNA.get_span.
Proof. unfold VNA.get_span. grows_tac. Qed.

Lemma grows_get_points : grows VNA.get_points.
Proof. unfold VNA.get_points. grows_tac. Qed.

Lemma grows_global name : grows (VNA.global name).
Proof. unfold VNA.global. grows_tac. Qed.

Lemma grows_read_points n : forall acc, grows (VNA.read_points n acc).
Proof. induction n; intros acc; cbn [VNA.read_points]; grows_tac. Qed.

Lemma grows_write_lines file raw : grows (VNA.write_lines file raw).
Proof.
  induction raw as [|[re im] raw IH]; cbn [VNA.write_lines]; grows_tac.
Qed.

#[local] Hint Resolve grows_get_center grows_get_span grows_get_points
  grows_global grows_read_points grows_write_lines : grows.

Lemma grows_read_raw : grows VNA.read_raw.
Proof. unfold VNA.read_raw. grows_tac. Qed.
#[local] Hint Resolve grows_read_raw : grows.

Lemma grows_write_raw file : grows (VNA.write_raw file).
Proof.
  unfold VNA.write_raw. apply grows_bind; [auto with grows|intros raw].
  apply grows_with_open. grows_tac.
Qed.

Lemma grows_move_to m pos : grows (Motor.move_to m pos).
Proof. unfold Motor.move_to. grows_tac. Qed.
#[local] Hint Resolve grows_write_raw grows_move_to : grows.

Lemma grows_get_freq_at self fuel pos :
  grows (Stoerkoerpermessung.get_freq_at self fuel pos).
Proof. unfold Stoerkoerpermessung.get_freq_at. grows_tac. Qed.

Lemma grows_capture rc_mode rc_folder pos suffix appendix ext :
  grows (Stoerkoerpermessung.capture rc_mode rc_folder pos suffix appendix ext).
Proof. unfold Stoerkoerpermessung.capture. grows_tac. Qed.
#[local] Hint Resolve grows_get_freq_at grows_capture : grows.

Lemma grows_point self fuel cm_reference rc_mode checkmode rc_folder outf
      appendix ext pos :
  grows (Stoerkoerpermessung.point self fuel cm_reference rc_mode checkmode
           rc_folder outf appendix ext pos).
Proof. unfold Stoerkoerpermessung.point. grows_tac. Qed.
#[local] Hint Resolve grows_point : grows.

Lemma grows_while_sweep body stop stepsize :
  (forall pos, grows (body pos)) ->
  forall fuel pos, grows (while_sweep body stop stepsize fuel pos).
Proof.
  intros Hb. induction fuel as [|f IH]; intros pos; cbn [while_sweep];
    grows_tac.
Qed.

Lemma grows_sweep self fuel start stop stepsize cm_reference rc_mode
      checkmode rc_folder outf appendix ext :
  grows (Stoerkoerpermessung.sweep self fuel start stop stepsize cm_reference
           rc_mode checkmode rc_folder outf appendix ext).
Proof.
  unfold Stoerkoerpermessung.sweep. apply grows_while_sweep. intros pos.
  grows_tac.
Qed.
#[local] Hint Resolve grows_sweep : grows.

(** ** One cycle of the measurement *)

Lemma splitext_app p : fst (splitext p) ++ snd (splitext p) = p.
Proof.
  unfold splitext.
  destruct (rfind "/"%byte p <? rfind "."%byte p); [|apply app_nil_r].
  destruct (forallb _ _); [apply app_nil_r|]. apply firstn_skipn.
Qed.

Lemma with_open_opens {A} path (body : M A) w r w' :
  grows body -> with_open path body w = (r, w') ->
  exists t, trace w' = trace w ++ EvOpen path :: t.
Proof.
  intros Hb H. unfold with_open in H.
  destruct (body (log (EvOpen path) w)) as [r0 w0] eqn:E.
  destruct (Hb _ _ _ E) as [t Ht]. cbn [log trace] in Ht.
  rewrite <- app_assoc in Ht. cbn [app] in Ht.
  destruct r0; injection H as _ <-; cbn [log trace]; rewrite Ht.
  - exists (t ++ [EvClose path]). now rewrite <- app_assoc.
  - exists (t ++ [EvClose path]). now rewrite <- app_assoc.
  - now exists t.
  - now exists t.
Qed.

Lemma with_open_Ret {A} path (body : M A) w a w' :
  with_open path body w = (Ret a, w') ->
  exists w0, body (log (EvOpen path) w) = (Ret a, w0)
             /\ w' = log (EvClose path) w0.
Proof.
  unfold with_open.
  destruct (body (log (EvOpen path) w)) as [[b|e| |] w0]; try discriminate.
  intros H. injection H as <- <-. now exists w0.
Qed.


(** A cycle is the writing of its file, then the way back to the start. *)
Lemma cycle_unfold self fuel start stop stepsize cm_reference infinite
      rc_mode checkmode rc_folder inf_cnt :
  exists body : M unit, grows body
    /\ Stoerkoerpermessung.cycle self fuel start stop stepsize cm_reference
         infinite rc_mode checkmode rc_folder inf_cnt
       = bind (with_open (cycle_file self infinite inf_cnt) body)
              (fun _ => Motor.move_to (Stoerkoerpermessung.motor self) start).
Proof.
  unfold Stoerkoerpermessung.cycle, cycle_file.
  destruct (splitext (Stoerkoerpermessung.out_filename self)) as [name ext].
  cbn [fst snd]. eexists. split; [|reflexivity]. grows_tac.
Qed.

Lemma cycle_opens self fuel start stop stepsize cm_reference infinite
      rc_mode checkmode rc_folder inf_cnt w :
  exists t,
    trace (snd (Stoerkoerpermessung.cycle self fuel start stop stepsize
                  cm_reference infinite rc_mode checkmode rc_folder inf_cnt w))
    = trace w ++ EvOpen (cycle_file self infinite inf_cnt) :: t.
Proof.
  destruct (cycle_unfold self fuel start stop stepsize cm_reference infinite
              rc_mode checkmode rc_folder inf_cnt) as (body & Hb & ->).
  unfold bind.
  destruct (with_open (cycle_file self infinite inf_cnt) body w)
    as [r1 w1] eqn:E1.
  destruct (with_open_opens _ _ _ _ _ Hb E1) as [t1 H1].
  destruct r1 as [[]|e| |]; cbn [snd]; eauto.
  destruct (Motor.move_to (Stoerkoerpermessung.motor self) start w1)
    as [r2 w2] eqn:E2.
  destruct (grows_move_to _ _ _ _ _ E2) as [t2 H2]. cbn [snd].
  exists (t1 ++ t2). rewrite H2, H1, <- app_assoc. reflexivity.
Qed.

(** X13: outside the infinite mode the first thing a cycle does is to
    open, for writing, the file of the name given on the command line,
    exactly as given: taking the name apart at its extension and putting
    it together again changes nothing. *)
Theorem cycle_opens_out_filename self fuel start stop stepsize cm_reference
        infinite rc_mode checkmode rc_folder inf_cnt w :
  truthy infinite = false ->
  exists t,
    trace (snd (Stoerkoerpermessung.cycle self fuel start stop stepsize
                  cm_reference infinite rc_mode checkmode rc_folder inf_cnt w))
    = trace w ++ EvOpen (Stoerkoerpermessung.out_filename self) :: t.
Proof.
  intros Hinf.
  destruct (cycle_opens self fuel start stop stepsize cm_reference infinite
              rc_mode checkmode rc_folder inf_cnt w) as [t Ht].
  exists t. rewrite Ht. unfold cycle_file. rewrite Hinf. cbn [app].
  now rewrite splitext_app.
Qed.

Lemma cycle_opens_out_filename_witness :
  exists t,
    trace (snd (Stoerkoerpermessung.cycle (example_self []) 3 0%float
                  10%float 2%float 5%float None None (Some true) (B "rc/")
                  1 (lab [] [])))
    = trace (lab [] []) ++ EvOpen (B "out.dat") :: t.
Proof.
  apply (cycle_opens_out_filename (example_self []) 3 0%float 10%float
           2%float 5%float None None (Some true) (B "rc/") 1 (lab [] [])).
  reflexivity.
Defined.

Lemma dec_value_zeros k ds :
  dec_value (repeat "0"%byte k ++ ds) = dec_value ds.
Proof.
  unfold dec_value. rewrite fold_left_app. f_equal.
  induction k as [|k IH]; [reflexivity|]. exact IH.
Qed.

(** The count of a cycle can be read back from its padded text. *)
Lemma py_int_pad_left k n :
  0 <= n -> py_int (pad_left "0"%byte k (str_of_int n)) = Ret n.
Proof.
  intros Hn. destruct (str_of_int_nonneg n Hn) as (Hne & Hall & Hval).
  unfold pad_left. rewrite py_int_digits.
  - now rewrite dec_value_zeros, Hval.
  - intros C. now apply app_eq_nil in C as [_ C].
  - apply Forall_app. split; [|assumption].
    apply List.Forall_forall. intros b Hb. apply repeat_spec in Hb.
    now subst b.
Qed.

Lemma cycle_file_inj self infinite i j :
  truthy infinite = true -> 0 <= i -> 0 <= j ->
  cycle_file self infinite i = cycle_file self infinite j -> i = j.
Proof.
  intros Hinf Hi Hj. unfold cycle_file. rewrite Hinf. intros H.
  apply app_inv_head in H. apply app_inv_tail in H.
  injection H as H.
  assert (E : py_int (pad_left "0"%byte 2 (str_of_int i))
              = py_int (pad_left "0"%byte 2 (str_of_int j))) by now rewrite H.
  rewrite !py_int_pad_left in E by assumption. congruence.
Qed.

(** X14: in the infinite mode two cycles with different counts write to
    different files: whatever the two cycles go on to do, the files they
    open first differ, so that no cycle overwrites the table of another. *)
Theorem cycle_files_distinct self fuel start stop stepsize cm_reference
        infinite rc_mode checkmode rc_folder i j w1 w2 f1 f2 t1 t2 :
  truthy infinite = true -> 0 <= i -> 0 <= j -> i <> j ->
  trace (snd (Stoerkoerpermessung.cycle self fuel start stop stepsize
                cm_reference infinite rc_mode checkmode rc_folder i w1))
  = trace w1 ++ EvOpen f1 :: t1 ->
  trace (snd (Stoerkoerpermessung.cycle self fuel start stop stepsize
                cm_reference infinite rc_mode checkmode rc_folder j w2))
  = trace w2 ++ EvOpen f2 :: t2 ->
  f1 <> f2.
Proof.
  intros Hinf Hi Hj Hij H1 H2 Heq.
  destruct (cycle_opens self fuel start stop stepsize cm_reference infinite
              rc_mode checkmode rc_folder i w1) as [s1 E1].
  destruct (cycle_opens self fuel start stop stepsize cm_reference infinite
              rc_mode checkmode rc_folder j w2) as [s2 E2].
  rewrite E1 in H1. rewrite E2 in H2.
  apply app_inv_head in H1. apply app_inv_head in H2.
  injection H1 as H1 _. injection H2 as H2 _.
  apply Hij. apply (cycle_file_inj self infinite); try assumption.
  congruence.
Qed.

Lemma cycle_files_distinct_witness :
  truthy (Some true) = true /\ B "out_01.dat" <> B "out_02.dat".
Proof.
  split; [reflexivity|].
  eapply (cycle_files_distinct endless_self 3 0%float 10%float 2%float
            5%float (Some true) None (Some true) (B "rc/") 1 2
            (lab [] []) (lab [] [])).
  - reflexivity.
  - lia.
  - lia.
  - lia.
  - lazy. reflexivity.
  - lazy. reflexivity.
Defined.


(** X15: a cycle that returns has opened its file, closed it after the
    sweep and only then sent the motor back to the start of the range; the
    command of this move is the last thing it has done. *)
Theorem cycle_returns self fuel start stop stepsize cm_reference infinite
        rc_mode checkmode rc_folder inf_cnt w u w' :
  Stoerkoerpermessung.cycle self fuel start stop stepsize cm_reference
    infinite rc_mode checkmode rc_folder inf_cnt w = (Ret u, w') ->
  exists P t,
    Motor.steps_of (Stoerkoerpermessung.motor self) start = Ret P
    /\ trace w'
       = trace w ++ EvOpen (cycle_file self infinite inf_cnt) :: t
           ++ [EvClose (cycle_file self infinite inf_cnt);
               move_command (Stoerkoerpermessung.motor self) P].
Proof.
  destruct (cycle_unfold self fuel start stop stepsize cm_reference infinite
              rc_mode checkmode rc_folder inf_cnt) as (body & Hb & ->).
  intros H. apply bind_inv in H as (a & w1 & Ho & Hm).
  apply with_open_Ret in Ho as (w0 & Hbody & ->).
  destruct (Hb _ _ _ Hbody) as [t Ht].
  apply move_to_trace in Hm as (P & HP & Hm).
  exists P, t. split; [exact HP|].
  rewrite Hm. cbn [log trace]. rewrite Ht. cbn [log trace].
  rewrite <- !app_assoc. reflexivity.
Qed.

Lemma cycle_returns_witness :
  exists P t,
    Motor.steps_of (Stoerkoerpermessung.motor (example_self [])) 0%float
    = Ret P
    /\ trace (snd (Stoerkoerpermessung.cycle (example_self []) 3 0%float
                     0%float 1%float 5%float None None None (B "rc/") 1
                     one_point_lab))
       = trace one_point_lab
           ++ EvOpen (cycle_file (example_self []) None 1) :: t
           ++ [EvClose (cycle_file (example_self []) None 1);
               move_command (Stoerkoerpermessung.motor (example_self [])) P].
Proof.
  apply (cycle_returns (example_self []) 3 0%float 0%float 1%float 5%float
           None None None (B "rc/") 1 one_point_lab tt).
  vm_compute. reflexivity.
Defined.



(** ** The infinite mode *)

Lemma cycles_infinite self fuel start stop stepsize cm_reference infinite
      rc_mode checkmode rc_folder :
  truthy infinite = true ->
  forall n inf_cnt w u,
    fst (Stoerkoerpermessung.cycles self fuel start stop stepsize
           cm_reference infinite rc_mode checkmode rc_folder n inf_cnt w)
    <> Ret u.
Proof.
  intros Hinf. induction n as [|n IH]; intros inf_cnt w u.
  - discriminate.
  - cbn [Stoerkoerpermessung.cycles]. rewrite Hinf. unfold bind.
    destruct (Stoerkoerpermessung.cycle _ _ _ _ _ _ _ _ _ _ _ w)
      as [[[]|e| |] w1]; try discriminate.
    apply IH.
Qed.

(** X17: with [Infinite] switched on, [measure] never returns: it ends
    only by an exception, or not at all. *)
Theorem measure_infinite_never_returns self fuel w settings s u :
  section (Stoerkoerpermessung.config self) "MEASUREMENT" = Ret settings ->
  Stoerkoerpermessung.read_settings settings = Ret s ->
  truthy (Stoerkoerpermessung.infinite s) = true ->
  fst (Stoerkoerpermessung.measure self fuel w) <> Ret u.
Proof.
  intros Hsec Hs Hinf. unfold Stoerkoerpermessung.measure.
  rewrite (lift_bind _ _ _ _ Hsec), (lift_bind _ _ _ _ Hs).
  destruct (PrimFloat.ltb _ _); unfold bind, lift;
    (destruct (Stoerkoerpermessung.plan_stepsize settings _ _);
     [now apply cycles_infinite|discriminate..]).
Qed.

Lemma measure_infinite_never_returns_witness :
  getboolean (<[ "infinite"%string := B "yes" ]>
                (example_measurement [("steps"%string, B "5")])) "Infinite"
  = Ret (Some true)
  /\ fst (Stoerkoerpermessung.measure endless_self 2 (lab [] [])) <> Ret tt.
Proof.
  split; [vm_compute; reflexivity|].
  apply (measure_infinite_never_returns endless_self 2 (lab [] [])
           (<[ "infinite"%string := B "yes" ]>
              (example_measurement [("steps"%string, B "5")]))
           (Stoerkoerpermessung.mkSettings 0%float 10%float (Some true)
              (Some false) (B "rc/") (Some true) 5%float) tt).
  - vm_compute. reflexivity.
  - vm_compute. reflexivity.
  - reflexivity.
Defined.

(** ** More on [read_raw] *)

Lemma read_0 d w : read d 0 w = (Ret [], set_inbuf d (inbuf (ser d w)) w).
Proof. reflexivity. Qed.

Lemma set_inbuf_same d w : set_inbuf d (inbuf (ser d w)) w = w.
Proof. destruct w as [[vt vi] [mt mi] rd tr]. now destruct d. Qed.

(** X18: a block of indefinite length, whose header is [#0], is not
    understood: the empty length field is no integer, and [read_raw] ends
    in [ValueError] after the two bytes of the header, with the data of the
    block still on the line. *)
Theorem read_raw_indefinite_block w rest :
  inbuf (vna_ser w) = hash :: "0"%byte :: rest ->
  VNA.read_raw w
  = (Raise ValueError, set_inbuf DevVNA rest (logs trace_query w)).
Proof.
  intros Hin. unfold VNA.read_raw.
  erewrite bind_Ret by apply cmd_logs.
  erewrite bind_Ret by apply cmd_logs.
  rewrite log_log. fold trace_query.
  erewrite bind_Ret; cycle 1.
  { apply read_enough with (bs := [hash]) (rest := "0"%byte :: rest);
      [rewrite ser_logs; exact Hin | reflexivity]. }
  unfold lift at 1. erewrite bind_Ret by reflexivity.
  change (bytes_eqb [hash] (B "#")) with true. cbv iota.
  erewrite bind_Ret; cycle 1.
  { apply read_enough with (bs := ["0"%byte]) (rest := rest);
      [now rewrite inbuf_set_inbuf | reflexivity]. }
  unfold lift at 1. erewrite bind_Ret by reflexivity.
  unfold lift at 1. erewrite bind_Ret by reflexivity.
  change (Z.to_nat 0) with 0%nat.
  erewrite bind_Ret by apply read_0.
  rewrite set_inbuf_same, !set_inbuf_twice. reflexivity.
Qed.

Lemma read_raw_indefinite_block_witness :
  VNA.read_raw (vna_world (B "#0" ++ le_one ++ le_two ++ nl))
  = (Raise ValueError,
     set_inbuf DevVNA (le_one ++ le_two ++ nl)
       (logs trace_query (vna_world (B "#0" ++ le_one ++ le_two ++ nl)))).
Proof.
  apply (read_raw_indefinite_block
           (vna_world (B "#0" ++ le_one ++ le_two ++ nl))
           (le_one ++ le_two ++ nl)).
  reflexivity.
Defined.



(** ** [read_raw_ascii] *)







(** X21: an answer without any text, a line of white space only, makes
    [read_raw_ascii] end in [ValueError], after the line was consumed:
    the split of the empty text is one empty field, which is no number. *)
Theorem read_raw_ascii_blank w line rest :
  inbuf (vna_ser w) = line ++ newline :: rest ->
  ~ In newline line ->
  utf8_valid (line ++ [newline]) = true ->
  rstrip (line ++ [newline]) = [] ->
  VNA.read_raw_ascii w
  = (Raise ValueError,
     set_inbuf DevVNA rest
       (logs [EvWrite DevVNA (B "FORMAT:DATA ASCII" ++ nl);
              EvWrite DevVNA (B "TRAC? CH1DATA" ++ nl)] w)).
Proof.
  intros Hin Hnl Hu Hblank. unfold VNA.read_raw_ascii.
  erewrite bind_Ret by apply cmd_logs.
  erewrite bind_Ret by apply cmd_logs.
  rewrite log_log.
  erewrite bind_Ret; cycle 1.
  { apply readline_found with (line := line) (rest := rest);
      [rewrite ser_logs; exact Hin | exact Hnl]. }
  rewrite (lift_bind _ _ _ _ (decode_valid _ Hu)). cbv zeta.
  rewrite Hblank. reflexivity.
Qed.

Lemma read_raw_ascii_blank_witness :
  fst (VNA.read_raw_ascii (vna_world (ln "  " ++ ln "1,2")))
  = Raise ValueError.
Proof.
  rewrite (read_raw_ascii_blank (vna_world (ln "  " ++ ln "1,2"))
             (B "  ") (ln "1,2")).
  - reflexivity.
  - reflexivity.
  - vm_compute. intuition discriminate.
  - reflexivity.
  - reflexivity.
Defined.
(** ** What the classes do to the outside *)

Section Emits.

Variable P : event -> Prop.

Lemma emits_silent {A} (m : M A) :
  (forall w r w', m w = (r, w') -> trace w' = trace w) -> emits P m.
Proof.
  intros H w r w' E. exists []. rewrite app_nil_r. split; [eauto|constructor].
Qed.

Lemma emits_ret {A} (a : A) : emits P (ret a).
Proof. apply emits_silent. now intros w r w' [= _ <-]. Qed.

Lemma emits_raise {A} e : emits P (@raise A e).
Proof. apply emits_silent. now intros w r w' [= _ <-]. Qed.

Lemma emits_lift {A} (x : res A) : emits P (lift x).
Proof. apply emits_silent. now intros w r w' [= _ <-]. Qed.

Lemma emits_readline d : emits P (readline d).
Proof. apply emits_silent. intros w r w'. apply readline_trace. Qed.

Lemma emits_read d n : emits P (read d n).
Proof.
  apply emits_silent. intros w r w' H. unfold read in H.
  destruct (serial_read n (ser d w)) as [r0 s]. injection H as _ <-.
  now destruct d.
Qed.

Lemma emits_read_lines path : emits P (read_lines path).
Proof.
  apply emits_silent. intros w r w' H. unfold read_lines in H.
  destruct (lookup_file path (readable w)); now injection H as _ <-.
Qed.

Lemma emits_emit e : P e -> emits P (emit e).
Proof.
  intros He w r w' H. injection H as _ <-. exists [e].
  split; [reflexivity|now repeat constructor].
Qed.

Lemma emits_sleep t : P (EvSleep t) -> emits P (sleep t).
Proof.
  intros Ht. unfold sleep.
  repeat match goal with
         | |- emits _ (if ?b then _ else _) => destruct b
         end; auto using emits_raise, emits_emit.
Qed.

Lemma emits_bind {A C} (m : M A) (k : A -> M C) :
  emits P m -> (forall a, emits P (k a)) -> emits P (bind m k).
Proof.
  intros Hm Hk w r w' H. unfold bind in H.
  destruct (m w) as [r0 w1] eqn:E. destruct (Hm _ _ _ E) as (t1 & H1 & F1).
  destruct r0 as [a|e| |].
  - destruct (Hk a _ _ _ H) as (t2 & H2 & F2). exists (t1 ++ t2).
    split; [now rewrite H2, H1, app_assoc|now apply Forall_app].
  - injection H as _ <-. now exists t1.
  - injection H as _ <-. now exists t1.
  - injection H as _ <-. now exists t1.
Qed.

End Emits.

Create HintDb emits.
#[local] Hint Resolve emits_ret emits_raise emits_lift emits_readline
  emits_read emits_read_lines : emits.

(** Splits a program into its binds and branches; the leaves are closed
    by the lemmas of the database. *)
Ltac emits_tac :=
  repeat first
    [ solve [auto with emits]
    | apply emits_bind; [|intros]
    | match goal with
      | |- emits _ (if ?b then _ else _) => destruct b
      | |- emits _ (match ?x with _ => _ end) => destruct x
      end ].

(** *** The motor *)

Lemma emits_motor_line m s :
  emits (addressed m) (write DevMotor (encode (Motor.name m ++ s ++ nl))).
Proof. apply emits_emit. now exists s. Qed.

Lemma emits_motor_line2 m a b :
  emits (addressed m)
    (write DevMotor (encode (Motor.name m ++ a ++ b ++ nl))).
Proof. apply emits_emit. exists (a ++ b). now rewrite <- app_assoc. Qed.

#[local] Hint Resolve emits_motor_line emits_motor_line2 : emits.

Lemma emits_send_settings m conf :
  emits (addressed m) (Motor.send_settings m conf).
Proof. induction conf; cbn [Motor.send_settings]; emits_tac. Qed.

Lemma emits_Motor_get m var : emits (addressed m) (Motor.get m var).
Proof. unfold Motor.get. emits_tac. Qed.

#[local] Hint Resolve emits_send_settings emits_Motor_get : emits.


(** *** The VNA *)

Lemma emits_VNA_cmd c : emits vna_traffic (VNA.cmd c).
Proof. apply emits_emit. exact I. Qed.

Lemma emits_Marker_cmd m c : emits vna_traffic (Marker.cmd m c).
Proof. apply emits_emit. exact I. Qed.

Lemma emits_vna_sleep t : emits vna_traffic (sleep t).
Proof. apply emits_sleep. exact I. Qed.

#[local] Hint Resolve emits_VNA_cmd emits_Marker_cmd emits_vna_sleep : emits.

Lemma emits_get_pos m : emits vna_traffic (Marker.get_pos m).
Proof. unfold Marker.get_pos. emits_tac. Qed.

Lemma emits_get_avg : emits vna_traffic VNA.get_avg.
Proof. unfold VNA.get_avg. emits_tac. Qed.

Lemma emits_get_sweeptime : emits vna_traffic VNA.get_sweeptime.
Proof. unfold VNA.get_sweeptime. emits_tac. Qed.

Lemma emits_read_points n : forall acc, emits vna_traffic (VNA.read_points n acc).
Proof. induction n; intros acc; cbn [VNA.read_points]; emits_tac. Qed.

#[local] Hint Resolve emits_get_pos emits_get_avg emits_get_sweeptime
  emits_read_points : emits.

Lemma emits_read_raw : emits vna_traffic VNA.read_raw.
Proof. unfold VNA.read_raw. emits_tac. Qed.

#[local] Hint Resolve emits_read_raw : emits.

(** ** The bounds of the sweep *)

Lemma SFltb_asym a b : SFltb a b = true -> SFltb b a = false.
Proof.
  unfold SFltb, SFcompare.
  destruct a as [sa|sa| |sa ma ea], b as [sb|sb| |sb mb eb];
    try destruct sa; try destruct sb; try reflexivity; try discriminate.
  - rewrite (Z.compare_antisym ea eb).
    change (PosDef.Pos.compare_cont Eq mb ma) with (Pos.compare mb ma).
    change (PosDef.Pos.compare_cont Eq ma mb) with (Pos.compare ma mb).
    rewrite (Pos.compare_antisym ma mb).
    destruct (ea ?= eb); cbn [CompOpp]; try reflexivity; try discriminate.
    destruct (Pos.compare ma mb); cbn [CompOpp]; try reflexivity;
      discriminate.
  - rewrite (Z.compare_antisym ea eb).
    change (PosDef.Pos.compare_cont Eq mb ma) with (Pos.compare mb ma).
    change (PosDef.Pos.compare_cont Eq ma mb) with (Pos.compare ma mb).
    rewrite (Pos.compare_antisym ma mb).
    destruct (ea ?= eb); cbn [CompOpp]; try reflexivity; try discriminate.
    destruct (Pos.compare ma mb); cbn [CompOpp]; try reflexivity;
      discriminate.
Qed.

Lemma ltb_asym x y : PrimFloat.ltb x y = true -> PrimFloat.ltb y x = false.
Proof. rewrite !ltb_spec. apply SFltb_asym. Qed.

(** X24: [measure] sweeps between the two bounds of the configuration in
    ascending order, whichever of them is called [Start]: the step is
    planned and the cycles are run from a bound [lo] to a bound [hi] that
    are the two configured values, with [hi] not below [lo]. *)
Theorem measure_orders_bounds self fuel w settings s :
  section (Stoerkoerpermessung.config self) "MEASUREMENT" = Ret settings ->
  Stoerkoerpermessung.read_settings settings = Ret s ->
  exists lo hi,
    ((lo = Stoerkoerpermessung.start s /\ hi = Stoerkoerpermessung.stop s)
     \/ (lo = Stoerkoerpermessung.stop s /\ hi = Stoerkoerpermessung.start s))
    /\ PrimFloat.ltb hi lo = false
    /\ Stoerkoerpermessung.measure self fuel w
       = (let* stepsize :=
            lift (Stoerkoerpermessung.plan_stepsize settings lo hi) in
          Stoerkoerpermessung.cycles self fuel lo hi stepsize
            (Stoerkoerpermessung.cm_reference s)
            (Stoerkoerpermessung.infinite s) (Stoerkoerpermessung.rc_mode s)
            (Stoerkoerpermessung.checkmode s)
            (Stoerkoerpermessung.rc_folder s) fuel 1) w.
Proof.
  intros Hsec Hs. unfold Stoerkoerpermessung.measure.
  rewrite (lift_bind _ _ _ _ Hsec), (lift_bind _ _ _ _ Hs).
  destruct (PrimFloat.ltb (Stoerkoerpermessung.stop s)
                          (Stoerkoerpermessung.start s)) eqn:E.
  - exists (Stoerkoerpermessung.stop s), (Stoerkoerpermessung.start s).
    split; [right; now split|]. split; [now apply ltb_asym|reflexivity].
  - exists (Stoerkoerpermessung.start s), (Stoerkoerpermessung.stop s).
    split; [left; now split|]. split; [exact E|reflexivity].
Qed.

(** With [Start = 10] and [Stop = 0], as with the two exchanged, the
    sweep runs from 0 to 10. *)
Lemma measure_orders_bounds_witness :
  exists lo hi,
    ((lo = 10%float /\ hi = 0%float) \/ (lo = 0%float /\ hi = 10%float))
    /\ PrimFloat.ltb hi lo = false
    /\ Stoerkoerpermessung.measure downward_self 2 (lab [] [])
       = (let* stepsize :=
            lift (Stoerkoerpermessung.plan_stepsize
                    (<[ "start"%string := B "10" ]>
                       (<[ "stop"%string := B "0" ]>
                          (example_measurement [("steps"%string, B "5")])))
                    lo hi) in
          Stoerkoerpermessung.cycles downward_self 2 lo hi stepsize
            5%float (Some false) (Some false) (Some true) (B "rc/") 2 1)
           (lab [] []).
Proof.
  apply (measure_orders_bounds downward_self 2 (lab [] [])
           (<[ "start"%string := B "10" ]>
              (<[ "stop"%string := B "0" ]>
                 (example_measurement [("steps"%string, B "5")])))
           (Stoerkoerpermessung.mkSettings 10%float 0%float (Some false)
              (Some false) (B "rc/") (Some true) 5%float)).
  - vm_compute. reflexivity.
  - vm_compute. reflexivity.
Defined.

(** ** Text queries of the VNA *)


(** ** A motor line with a timeout never blocks *)

Lemma prompt_ret {A} (a : A) : prompt (ret a).
Proof. intros w t r w' Ht [= <- <-]. now split. Qed.

Lemma prompt_lift {A} (x : res A) (Hx : x <> Hang) : prompt (lift x).
Proof. intros w t r w' Ht [= <- <-]. now split. Qed.

Lemma prompt_write d bs : prompt (write d bs).
Proof. intros w t r w' Ht [= <- <-]. now split. Qed.

Lemma prompt_readline : prompt (readline DevMotor).
Proof.
  intros w t r w' Ht H. unfold readline, serial_readline in H.
  cbn [ser] in H. destruct (split_line (inbuf (motor_ser w))) as [[l rest]|].
  - injection H as <- <-. now split.
  - rewrite Ht in H. injection H as <- <-. now split.
Qed.

Lemma prompt_read_lines path : prompt (read_lines path).
Proof.
  intros w t r w' Ht H. unfold read_lines in H.
  destruct (lookup_file path (readable w)); injection H as <- <-; now split.
Qed.

Lemma prompt_bind {A C} (m : M A) (k : A -> M C) :
  prompt m -> (forall a, prompt (k a)) -> prompt (bind m k).
Proof.
  intros Hm Hk w t r w' Ht H. unfold bind in H.
  destruct (m w) as [r0 w1] eqn:E. destruct (Hm _ _ _ _ Ht E) as [H0 H1].
  destruct r0 as [a|e| |].
  - exact (Hk a _ _ _ _ H1 H).
  - injection H as <- <-. now split.
  - now destruct H0.
  - injection H as <- <-. now split.
Qed.

Lemma py_int_not_Hang s : py_int s <> Hang.
Proof.
  unfold py_int. destruct (split_sign (strip s)) as [neg body].
  destruct (digits_from 0 0 body) as [[[v n] [|b r]]|]; try discriminate.
  destruct (0 <? n); discriminate.
Qed.

Lemma decode_not_Hang bs : decode bs <> Hang.
Proof. unfold decode. destruct (utf8_valid bs); discriminate. Qed.

Lemma float_of_int_not_Hang z : float_of_int z <> Hang.
Proof.
  unfold float_of_int. destruct (binary_normalize prec emax z 0 false);
    discriminate.
Qed.

Lemma steps_of_not_Hang m x : Motor.steps_of m x <> Hang.
Proof.
  unfold Motor.steps_of, py_div, int_of_float.
  destruct (PrimFloat.eqb (Motor.scaling m) 0); [discriminate|].
  cbn [res_bind]. destruct (Prim2SF _); discriminate.
Qed.

Create HintDb prompt.
#[local] Hint Resolve prompt_ret prompt_lift prompt_write prompt_readline
  prompt_read_lines py_int_not_Hang decode_not_Hang float_of_int_not_Hang
  steps_of_not_Hang : prompt.

Ltac prompt_tac :=
  repeat first
    [ solve [auto with prompt]
    | apply prompt_bind; [|intros] ].

Lemma prompt_send_settings m conf : prompt (Motor.send_settings m conf).
Proof. induction conf; cbn [Motor.send_settings]; prompt_tac. Qed.

Lemma prompt_Motor_get m var : prompt (Motor.get m var).
Proof. unfold Motor.get. prompt_tac. Qed.

#[local] Hint Resolve prompt_send_settings prompt_Motor_get : prompt.

Lemma prompt_load_motor_config m file :
  prompt (Motor.load_motor_config m file).
Proof. unfold Motor.load_motor_config. prompt_tac. Qed.

(** X26: on a line with a timeout, as [init_motor] opens it, no method
    of [Motor] blocks for ever: every call returns or raises, and the line
    keeps its timeout.  (The VNA line is opened without one, and its reads
    can block.) *)
Theorem Motor_never_blocks m :
  (forall file, prompt (Motor.load_motor_config m file))
  /\ (forall var, prompt (Motor.get m var))
  /\ (forall x, prompt (Motor.move m x))
  /\ (forall x, prompt (Motor.speed m x))
  /\ prompt (Motor.stop m)
  /\ (forall x, prompt (Motor.move_to m x))
  /\ prompt (Motor.reset_pos m)
  /\ prompt (Motor.pos m)
  /\ prompt (Motor.is_at_limit_high m)
  /\ prompt (Motor.is_at_limit_low m)
  /\ prompt (Motor.analog_pos m)
  /\ prompt (Motor.is_moving m).
Proof.
  split; [intros file; apply prompt_load_motor_config|].
  unfold Motor.move, Motor.speed, Motor.stop, Motor.move_to,
    Motor.reset_pos, Motor.pos, Motor.is_at_limit_high,
    Motor.is_at_limit_low, Motor.analog_pos, Motor.is_moving.
  repeat apply conj; intros; prompt_tac.
Qed.

(** X27: a motor that [init_motor] has built has the name and the
    scaling of the section [MOTOR], and its line has the timeout that the
    section gives as [SerialTimeout]. *)
Theorem init_motor_returns cfg w m w' :
  Stoerkoerpermessung.init_motor cfg w = (Ret m, w') ->
  exists settings timeout_text scaling_text t,
    section cfg "MOTOR" = Ret settings
    /\ item settings "Name" = Ret (Motor.name m)
    /\ item settings "Scaling" = Ret scaling_text
    /\ py_float scaling_text = Ret (Motor.scaling m)
    /\ item settings "SerialTimeout" = Ret timeout_text
    /\ py_float timeout_text = Ret t
    /\ timeout (motor_ser w') = Some t.
Proof.
  unfold Stoerkoerpermessung.init_motor. intros H.
  apply bind_inv in H as (settings & w1 & Hsec & H).
  apply lift_inv in Hsec as [Hsec ->].
  apply bind_inv in H as (port & w1 & Hl & H). apply lift_inv in Hl as [_ ->].
  apply bind_inv in H as (b & w1 & Hl & H). apply lift_inv in Hl as [_ ->].
  apply bind_inv in H as (baud & w1 & Hl & H). apply lift_inv in Hl as [_ ->].
  apply bind_inv in H as (tt_ & w1 & Htt & H). apply lift_inv in Htt as [Htt ->].
  apply bind_inv in H as (t & w1 & Ht & H). apply lift_inv in Ht as [Ht ->].
  apply bind_inv in H as ([] & w1 & Ho & H).
  apply bind_inv in H as (name & w2 & Hn & H). apply lift_inv in Hn as [Hn ->].
  apply bind_inv in H as (conf & w2 & Hl & H). apply lift_inv in Hl as [_ ->].
  cbv zeta in H.
  apply bind_inv in H as ([] & w2 & Hc & H).
  apply bind_inv in H as (sc & w3 & Hsc & H). apply lift_inv in Hsc as [Hsc ->].
  apply bind_inv in H as (x & w3 & Hx & H). apply lift_inv in Hx as [Hx ->].
  injection H as <- <-. cbn [Motor.name Motor.scaling Motor.init].
  exists settings, tt_, sc, t. repeat split; try assumption.
  assert (H1 : timeout (motor_ser w1) = Some t).
  { unfold Serial_open in Ho. destruct (baud <? 0); [discriminate|].
    destruct (PrimFloat.ltb t 0); [discriminate|].
    now injection Ho as <-. }
  exact (proj2 (prompt_load_motor_config _ _ _ _ _ _ H1 Hc)).
Qed.

Lemma init_motor_returns_witness :
  exists settings timeout_text scaling_text t,
    section (example_config []) "MOTOR" = Ret settings
    /\ item settings "Name" = Ret (B "D")
    /\ item settings "Scaling" = Ret scaling_text
    /\ py_float scaling_text = Ret 0.5%float
    /\ item settings "SerialTimeout" = Ret timeout_text
    /\ py_float timeout_text = Ret t
    /\ timeout (motor_ser (snd (Stoerkoerpermessung.init_motor
                                  (example_config []) before_init)))
       = Some t.
Proof.
  apply (init_motor_returns (example_config []) before_init
           (Motor.mk (B "D") 0.5%float)).
  vm_compute. reflexivity.
Defined.
